(** * Openrunner: the tabs command layer
    [runner-modules/tabs/lib/background/tabsMethods.js]

    The handlers are asynchronous JavaScript functions over a tab manager.
    They are embedded as functions in a small state-and-exception monad
    [M] over a [World]: the clock read by [Date.now()], what the tab manager
    is going to answer, and a log of the calls the handlers make.

    Time is a whole number of milliseconds. A promise is the instant at
    which it settles together with its settlement; [await] moves the clock
    to that instant. The instants of the tab manager's answers are part of
    the world, so a statement about "every call" is a statement about every
    world. *)

From Stdlib Require Import ZArith String Ascii List Lia.
From stdpp Require Import base decidable option list gmap strings pretty.
Import ListNotations.

Local Open Scope string_scope.
Local Open Scope list_scope.
Local Open Scope Z_scope.

(** ** JavaScript values *)

#[warnings="-register-all"]
Inductive JsValue :=
| JsUndefined
| JsNull
| JsBool (b : bool)
| JsNumber (n : Z)
| JsNaN
| JsString (s : string)
| JsObject (fields : list (string * JsValue)).

(** The [typeof] operator. *)
Definition typeof (v : JsValue) : string :=
  match v with
  | JsUndefined => "undefined"
  | JsNull => "object"
  | JsBool _ => "boolean"
  | JsNumber _ | JsNaN => "number"
  | JsString _ => "string"
  | JsObject _ => "object"
  end.

(** ToBoolean, as applied by [if (reject)]. *)
Definition truthy (v : JsValue) : bool :=
  match v with
  | JsUndefined | JsNull | JsNaN => false
  | JsBool b => b
  | JsNumber n => negb (n =? 0)%Z
  | JsString s => negb (s =? "")%string
  | JsObject _ => true
  end.

(** An error object, as far as the handlers look at it: [err.name]. *)
Record JsError := { name : string; message : string }.

(** [lib/scriptErrors] is required by the module but is not part of it: the
    two error constructors and the name of the abort error are an interface
    the handlers are written against. *)
Class ScriptErrors := {
  illegalArgumentError : string -> JsError;
  newPageWaitTimeoutError : string -> JsError;
  CONTENT_SCRIPT_ABORTED_ERROR : string
}.

(** ** Data of the execution commands *)

(** The [metadata] object handed to a content script. Each property is
    present or absent. *)
Record Metadata := {
  attemptNumber : option nat;
  runBeginTime : option Z;
  waitBeginTime : option Z
}.

(** [Object.assign(target, source)]: the properties of [source] are written
    over those of [target]. *)
Definition Object_assign (target source : Metadata) : Metadata :=
  {| attemptNumber := from_option Some (attemptNumber target) (attemptNumber source);
     runBeginTime := from_option Some (runBeginTime target) (runBeginTime source);
     waitBeginTime := from_option Some (waitBeginTime target) (waitBeginTime source) |}.

(** The third argument of [runContentScript]: [{arg, metadata}]. *)
Record ExecContext := { ctx_arg : JsValue; ctx_metadata : Metadata }.

(** Modelled from the spec: what the tab manager (not part of this module)
    resolves [runContentScript] to, an outcome with exactly one of
    [resolve] and [reject] populated. *)
Inductive ExecutionOutcome :=
| Resolve (value : JsValue)
| Reject (value : JsValue).

(** The outcome as the object it is. *)
Definition outcome_object (o : ExecutionOutcome) : JsValue :=
  match o with
  | Resolve v => JsObject [("resolve", v)]
  | Reject v => JsObject [("reject", v)]
  end.

(** [const {reject} = outcome]: the property, [undefined] when absent. *)
Definition outcome_reject (o : ExecutionOutcome) : JsValue :=
  match o with
  | Resolve _ => JsUndefined
  | Reject v => v
  end.

(** The tab object [createTab] resolves to; only [tab.id] is read. *)
Record Tab := { tab_id : string }.

(** The parameter object of a command, [{id, url, code, arg, timeoutMs}];
    a property the caller left out is [undefined]. [timeoutMs] is a number
    of milliseconds. *)
Record Params := {
  id : JsValue;
  url : JsValue;
  code : JsValue;
  arg : JsValue;
  timeoutMs : Z
}.

(** ** Promises and the world around the handlers *)

Inductive Settlement (A : Type) :=
| Fulfilled (a : A)
| Rejected (e : JsError).
Arguments Fulfilled {A} a.
Arguments Rejected {A} e.

(** A promise is described by the instant at which it settles and how;
    [None] is a promise that never settles. *)
Definition Promise (A : Type) : Type := option (Z * Settlement A).

(** An answer of the tab manager: how long after the call its promise
    settles, and how. *)
Definition Reply (A : Type) : Type := option (Z * Settlement A).

Definition promise_of {A} (t : Z) (r : Reply A) : Promise A :=
  match r with
  | Some (dt, s) => Some (t + dt, s)
  | None => None
  end.

(** Calls that leave the module: the methods of the tab manager and the
    timer primitive [delay]. *)
Inductive Call :=
| hasTab_call (id : JsValue)
| createTab_call
| navigateTab_call (id url : JsValue)
| runContentScript_call (id code : JsValue) (ctx : ExecContext)
| waitForNewContent_call (id : JsValue)
| delay_call (ms : Z).

Definition is_tabManager_call (c : Call) : bool :=
  match c with
  | delay_call _ => false
  | _ => true
  end.

(** The world of one command invocation. [liveTabs] is what [hasTab]
    answers from; [runReplies] holds the answers to the successive calls of
    [runContentScript] (when it is used up the call never settles);
    [newContentAfter] is how long after the observation begins new content
    shows up, if ever; [log] records each outgoing call with the instant
    it was made at, oldest first. *)
Record World := {
  now : Z;
  liveTabs : gset string;
  createReply : Reply Tab;
  navigateReply : Reply JsValue;
  runReplies : list (Reply ExecutionOutcome);
  newContentAfter : option Z;
  log : list (Z * Call)
}.

Definition set_now (t : Z) (w : World) : World :=
  {| now := t; liveTabs := liveTabs w; createReply := createReply w;
     navigateReply := navigateReply w; runReplies := runReplies w;
     newContentAfter := newContentAfter w; log := log w |}.

Definition record (c : Call) (w : World) : World :=
  {| now := now w; liveTabs := liveTabs w; createReply := createReply w;
     navigateReply := navigateReply w; runReplies := runReplies w;
     newContentAfter := newContentAfter w; log := log w ++ [(now w, c)] |}.

Definition set_runReplies (rs : list (Reply ExecutionOutcome)) (w : World) : World :=
  {| now := now w; liveTabs := liveTabs w; createReply := createReply w;
     navigateReply := navigateReply w; runReplies := rs;
     newContentAfter := newContentAfter w; log := log w |}.

(** ** The monad of the handlers *)

(** How an asynchronous function ends: it returns, it throws, it waits for
    a promise that never settles, or (in the model only) the retry loop of
    [wait] was cut off by its fuel. *)
Inductive Completion (A : Type) :=
| Returned (a : A)
| Thrown (e : JsError)
| Pending
| OutOfFuel.
Arguments Returned {A} a.
Arguments Thrown {A} e.
Arguments Pending {A}.
Arguments OutOfFuel {A}.

Definition M (A : Type) : Type := World -> Completion A * World.

Definition ret {A} (a : A) : M A := fun w => (Returned a, w).

Definition bind {A B} (m : M A) (k : A -> M B) : M B :=
  fun w =>
    match m w with
    | (Returned a, w') => k a w'
    | (Thrown e, w') => (Thrown e, w')
    | (Pending, w') => (Pending, w')
    | (OutOfFuel, w') => (OutOfFuel, w')
    end.

Definition throw {A} (e : JsError) : M A := fun w => (Thrown e, w).

(** [try { body } catch (err) { handler }] *)
Definition try_catch {A} (body : M A) (handler : JsError -> M A) : M A :=
  fun w =>
    match body w with
    | (Thrown e, w') => handler e w'
    | r => r
    end.

Declare Scope js_scope.
Delimit Scope js_scope with js.
Notation "'let*' x ':=' m 'in' k" := (bind m (fun x => k))
  (at level 10, x name, m at level 100, k at level 200) : js_scope.
Local Open Scope js_scope.

(** [Date.now()] *)
Definition Date_now : M Z := fun w => (Returned (now w), w).

(** [await p]: the function resumes when [p] has settled, never earlier
    than now. *)
Definition await {A} (p : Promise A) : M A :=
  fun w =>
    match p with
    | None => (Pending, w)
    | Some (t, Fulfilled a) => (Returned a, set_now (Z.max (now w) t) w)
    | Some (t, Rejected e) => (Thrown e, set_now (Z.max (now w) t) w)
    end.

(** [p.then(f)] for an [f] that returns a settled promise. *)
Definition Promise_then {A B} (p : Promise A) (f : A -> Settlement B) : Promise B :=
  match p with
  | Some (t, Fulfilled a) => Some (t, f a)
  | Some (t, Rejected e) => Some (t, Rejected e)
  | None => None
  end.

Definition Promise_reject {A} (e : JsError) : Settlement A := Rejected e.

(** [Promise.race([p, q])] settles as the one that settles first; of two
    that settle at the same instant the one listed first wins. *)
Definition race2 {A} (p q : Promise A) : Promise A :=
  match p, q with
  | None, _ => q
  | _, None => p
  | Some (tp, _), Some (tq, _) => if tq <? tp then q else p
  end.

Definition Promise_race {A} (ps : list (Promise A)) : Promise A :=
  foldr race2 None ps.

(** ** The collaborators *)

(** Modelled from the spec: the tab manager the module is instantiated with
    is not part of it. Each method records its call and answers from the
    world; the asynchronous ones hand back the promise of their answer. *)
Module tabManager.

Definition hasTab (id : JsValue) : M bool :=
  fun w =>
    (Returned match id with
              | JsString s => bool_decide (s ∈ liveTabs w)
              | _ => false
              end,
     record (hasTab_call id) w).

Definition createTab : M (Promise Tab) :=
  fun w =>
    (Returned (promise_of (now w) (createReply w)), record createTab_call w).

Definition navigateTab (id url : JsValue) : M (Promise JsValue) :=
  fun w =>
    (Returned (promise_of (now w) (navigateReply w)),
     record (navigateTab_call id url) w).

Definition runContentScript (id code : JsValue) (ctx : ExecContext)
  : M (Promise ExecutionOutcome) :=
  fun w =>
    (Returned (promise_of (now w) (mjoin (head (runReplies w)))),
     record (runContentScript_call id code ctx)
            (set_runReplies (tail (runReplies w)) w)).

Definition waitForNewContent (id : JsValue) : M (Promise unit) :=
  fun w =>
    (Returned match newContentAfter w with
              | Some d => Some (now w + d, Fulfilled tt)
              | None => None
              end,
     record (waitForNewContent_call id) w).

End tabManager.

(** Modelled from the spec: [lib/delay], a pending signal that completes
    after [ms] milliseconds; a timer does not complete before it is
    started. *)
Definition delay (ms : Z) : M (Promise unit) :=
  fun w =>
    (Returned (Some (now w + Z.max 0 ms, Fulfilled tt)), record (delay_call ms) w).

(** ** Pieces of JavaScript the handlers use *)

Notation "a '===' b" := (String.eqb a b) (at level 70, no associativity) : js_scope.
Notation "a '!==' b" := (negb (String.eqb a b)) (at level 70, no associativity) : js_scope.

(** [b || e] with an effectful right operand: [e] only runs when [b] is
    false. *)
Definition lazy_or (b : bool) (e : M bool) : M bool :=
  if b then ret true else e.

(** [!e] *)
Definition not_ (e : M bool) : M bool :=
  let* b := e in ret (negb b).

(** A regular expression anchored at the start of the input, as a sequence
    of characters, some of them optional ([c?]). *)
Inductive RegExpItem :=
| Chr (c : ascii)
| Opt (c : ascii).

Fixpoint match_here (re : list RegExpItem) (s : string) : bool :=
  match re with
  | [] => true
  | Chr c :: re' =>
      match s with
      | String c' s' => Ascii.eqb c c' && match_here re' s'
      | EmptyString => false
      end
  | Opt c :: re' =>
      match s with
      | String c' s' => Ascii.eqb c c' && match_here re' s'
      | EmptyString => false
      end
      || match_here re' s
  end.

(** [re.test(v)]; the handlers reach it with strings only. *)
Definition RegExp_test (re : list RegExpItem) (v : JsValue) : bool :=
  match v with
  | JsString s => match_here re s
  | _ => false
  end.

(** [/^https?:\/\//] *)
Definition ALLOWED_URL_REGEXP : list RegExpItem :=
  [Chr "h"; Chr "t"; Chr "t"; Chr "p"; Opt "s"; Chr ":"; Chr "/"; Chr "/"].

(** The text of [timeoutMs / 1000] inside a template literal. JavaScript
    prints the shortest decimal that reads back as the quotient; for a whole
    number of milliseconds of magnitude below 10^15 that is the quotient
    written out exactly, with at most three decimals and no trailing
    zero. Above that bound the quotient is rounded before it is printed and
    this text is not the one JavaScript prints: what is stated of the text
    is stated below the bound. *)
Definition fraction_digits (r : Z) : string :=
  let d1 := r / 100 in
  let d2 := (r / 10) mod 10 in
  let d3 := r mod 10 in
  if r =? 0 then ""
  else if negb (d3 =? 0) then "." +:+ pretty d1 +:+ pretty d2 +:+ pretty d3
  else if negb (d2 =? 0) then "." +:+ pretty d1 +:+ pretty d2
  else "." +:+ pretty d1.

Definition div1000_toString (ms : Z) : string :=
  (if ms <? 0 then "-" else "")
  +:+ pretty (Z.abs ms / 1000) +:+ fraction_digits (Z.abs ms mod 1000).

(** ** The handlers *)

Section tabsMethods.
Context {errors : ScriptErrors}.

Definition createTab (_ : Params) : M JsValue :=
  let* created := tabManager.createTab in
  let* tab := await created in
  ret (JsString (tab_id tab)).

Definition navigateTab (p : Params) : M JsValue :=
  let* invalid :=
    lazy_or (typeof (id p) !== "string") (not_ (tabManager.hasTab (id p))) in
  if invalid then
    throw (illegalArgumentError "tabs.navigate(): invalid argument `id`")
  else if (typeof (url p) !== "string")
          || negb (RegExp_test ALLOWED_URL_REGEXP (url p)) then
    throw (illegalArgumentError
             "tabs.navigate(): `url` argument must be an absolute HTTP URL")
  else
    let* navigation := tabManager.navigateTab (id p) (url p) in
    await navigation.

Definition run (p : Params) : M JsValue :=
  let* invalid :=
    lazy_or (typeof (id p) !== "string") (not_ (tabManager.hasTab (id p))) in
  if invalid then
    throw (illegalArgumentError "tabs.run(): invalid argument `id`")
  else if typeof (code p) !== "string" then
    throw (illegalArgumentError "tabs.run(): invalid argument `code`")
  else
    let* t := Date_now in
    let metadata :=
      {| attemptNumber := None; runBeginTime := Some t; waitBeginTime := None |} in
    let* execution :=
      tabManager.runContentScript (id p) (code p)
        {| ctx_arg := arg p; ctx_metadata := metadata |} in
    let* outcome := await execution in
    ret (outcome_object outcome).

(** The [try] block of [waitForNewPage] either leaves the function with
    a value ([Some]) or falls out of its end ([None]); so does its
    [catch] clause when it swallows the error. *)
Definition waitForNewPage (p : Params) : M JsValue :=
  let* invalid :=
    lazy_or (typeof (id p) !== "string") (not_ (tabManager.hasTab (id p))) in
  if invalid then
    throw (illegalArgumentError "tabs.run(): invalid argument `id`")
  else if typeof (code p) !== "string" then
    throw (illegalArgumentError "tabs.run(): invalid argument `code`")
  else
    let* t := Date_now in
    let metadata :=
      {| attemptNumber := None; runBeginTime := Some t; waitBeginTime := None |} in
    let* waitForNewContentPromise := tabManager.waitForNewContent (id p) in
    let* returned :=
      try_catch
        (let* execution :=
           tabManager.runContentScript (id p) (code p)
             {| ctx_arg := arg p; ctx_metadata := metadata |} in
         let* outcome := await execution in
         let reject := outcome_reject outcome in
         if truthy reject then ret (Some (JsObject [("reject", reject)]))
         else ret None)
        (fun err =>
           if name err !== CONTENT_SCRIPT_ABORTED_ERROR then throw err
           else ret None) in
    match returned with
    | Some result => ret result
    | None =>
        let* timer := delay (timeoutMs p) in
        let* _ :=
          await (Promise_race
                   [waitForNewContentPromise;
                    Promise_then timer (fun _ =>
                      Promise_reject
                        (newPageWaitTimeoutError
                           ("Waiting for a new page timed out after "
                            +:+ div1000_toString (timeoutMs p)
                            +:+ " seconds")))]) in
        ret (JsObject [("reject", JsNull)])
    end.

(** The recursion of [attempt] has no bound in the source; here it is cut
    off by [fuel], and running out of it is [OutOfFuel]. *)
Fixpoint attempt (fuel : nat) (p : Params) (waitMetadata : Metadata)
         (attemptNumber : nat) : M JsValue :=
  match fuel with
  | O => fun w => (OutOfFuel, w)
  | S fuel' =>
      try_catch
        (let* t := Date_now in
         let metadata :=
           Object_assign
             {| attemptNumber := Some attemptNumber; runBeginTime := Some t;
                waitBeginTime := None |}
             waitMetadata in
         let* execution :=
           tabManager.runContentScript (id p) (code p)
             {| ctx_arg := arg p; ctx_metadata := metadata |} in
         let* outcome := await execution in
         ret (outcome_object outcome))
        (fun err =>
           if name err === CONTENT_SCRIPT_ABORTED_ERROR then
             attempt fuel' p waitMetadata (attemptNumber + 1)
           else throw err)
  end.

Definition wait (fuel : nat) (p : Params) : M JsValue :=
  let* invalid :=
    lazy_or (typeof (id p) !== "string") (not_ (tabManager.hasTab (id p))) in
  if invalid then
    throw (illegalArgumentError "tabs.wait(): invalid argument `id`")
  else if typeof (code p) !== "string" then
    throw (illegalArgumentError "tabs.wait(): invalid argument `code`")
  else
    let* t := Date_now in
    let waitMetadata :=
      {| attemptNumber := None; runBeginTime := None; waitBeginTime := Some t |} in
    attempt fuel p waitMetadata 0.

(** The map the module returns: command name to handler. *)
Definition tabsMethods (fuel : nat) : gmap string (Params -> M JsValue) :=
  list_to_map
    [("tabs.create", createTab);
     ("tabs.navigate", navigateTab);
     ("tabs.run", run);
     ("tabs.wait", wait fuel);
     ("tabs.waitForNewPage", waitForNewPage)].

End tabsMethods.

(** ** Vocabulary of the statements *)

(** What an invocation added to the log. *)
Definition calls_since (w w' : World) : list (Z * Call) :=
  drop (length (log w)) (log w').

(** The tab-manager methods invoked, in order. *)
Definition tabManager_calls (l : list (Z * Call)) : list Call :=
  filter (fun c => is_tabManager_call c = true) (snd <$> l).

(** The contexts [{arg, metadata}] of the script executions, in order. *)
Definition executions (l : list (Z * Call)) : list ExecContext :=
  omap (fun tc => match snd tc with
                  | runContentScript_call _ _ ctx => Some ctx
                  | _ => None
                  end) l.

(** The [attemptNumber] and the [waitBeginTime] of the script executions,
    in order. *)
Definition attempt_numbers (l : list (Z * Call)) : list (option nat) :=
  (fun ctx => attemptNumber (ctx_metadata ctx)) <$> executions l.

Definition wait_begin_times (l : list (Z * Call)) : list (option Z) :=
  (fun ctx => waitBeginTime (ctx_metadata ctx)) <$> executions l.

(** The metadata [wait] fixes before the first attempt. *)
Definition wait_metadata (t0 : Z) : Metadata :=
  {| attemptNumber := None; runBeginTime := None; waitBeginTime := Some t0 |}.

(** An absolute [http] or [https] URL, in the words of the specification. *)
Definition absolute_http (u : string) : bool :=
  String.prefix "http://" u || String.prefix "https://" u.

(** [s.includes(sub)] *)
Fixpoint includes (sub s : string) : bool :=
  String.prefix sub s
  || match s with
     | String _ s' => includes sub s'
     | EmptyString => false
     end.

(** The object [{reject: v}]. *)
Definition reject_object (v : JsValue) : JsValue := JsObject [("reject", v)].

Section vocabulary.
Context {errors : ScriptErrors}.

(** The script execution took [d] milliseconds and failed with the abort
    error. *)
Definition aborted (r : Reply ExecutionOutcome) : bool :=
  match r with
  | Some (d, Rejected e) => (0 <=? d) && (name e === CONTENT_SCRIPT_ABORTED_ERROR)
  | _ => false
  end.

(** The script execution completed without handing [waitForNewPage] a
    truthy [reject]: it resolved to an outcome whose [reject] is falsy or
    absent, or it was aborted. *)
Definition completes_without_reject (s : Settlement ExecutionOutcome) : bool :=
  match s with
  | Fulfilled o => negb (truthy (outcome_reject o))
  | Rejected e => name e === CONTENT_SCRIPT_ABORTED_ERROR
  end.

(** The error [waitForNewPage] gives up with. *)
Definition timed_out (seconds : string) : JsError :=
  newPageWaitTimeoutError
    ("Waiting for a new page timed out after " +:+ seconds +:+ " seconds").

(** The world once [waitForNewPage] has checked its arguments, begun
    the observation and called [runContentScript]. *)
Definition script_started (p : Params) (w : World) : World :=
  record (runContentScript_call (id p) (code p)
            {| ctx_arg := arg p;
               ctx_metadata := {| attemptNumber := None;
                                  runBeginTime := Some (now w);
                                  waitBeginTime := None |} |})
    (set_runReplies (tail (runReplies w))
       (record (waitForNewContent_call (id p)) (record (hasTab_call (id p)) w))).

(** How [waitForNewPage] ends once the script execution is behind it, in
    the world [w]: the timer is started now, and new content that shows up
    at [arrival] is compared with the timer's deadline. *)
Definition new_page_wait (p : Params) (arrival : option Z) (w : World)
  : Completion JsValue * World :=
  let started := record (delay_call (timeoutMs p)) w in
  let deadline := now w + Z.max 0 (timeoutMs p) in
  let late := (Thrown (timed_out (div1000_toString (timeoutMs p))),
               set_now (Z.max (now w) deadline) started) in
  match arrival with
  | Some t =>
      if deadline <? t then late
      else (Returned (reject_object JsNull), set_now (Z.max (now w) t) started)
  | None => late
  end.

(** The world after attempt number [n] of [wait], made in [w], has
    settled [d] milliseconds later. *)
Definition after_attempt (p : Params) (waitMetadata : Metadata) (n : nat)
           (d : Z) (w : World) : World :=
  set_now (Z.max (now w) (now w + d))
    (record (runContentScript_call (id p) (code p)
               {| ctx_arg := arg p;
                  ctx_metadata :=
                    Object_assign
                      {| attemptNumber := Some n; runBeginTime := Some (now w);
                         waitBeginTime := None |}
                      waitMetadata |})
       (set_runReplies (tail (runReplies w)) w)).

(** How long a reply takes. *)
Definition duration {A} (r : Reply A) : Z :=
  match r with
  | Some (d, _) => d
  | None => 0
  end.

(** How long a sequence of replies takes. *)
Definition total_duration {A} (rs : list (Reply A)) : Z :=
  foldr (fun r acc => duration r + acc) 0 rs.

(** The world after the attempts numbered [n], [n + 1], ... have met the
    replies [rs] one after the other. *)
Fixpoint after_attempts (p : Params) (waitMetadata : Metadata) (n : nat)
         (rs : list (Reply ExecutionOutcome)) (w : World) : World :=
  match rs with
  | [] => w
  | r :: rs' =>
      after_attempts p waitMetadata (S n) rs'
        (after_attempt p waitMetadata n (duration r) w)
  end.

End vocabulary.

(** Error constructors to run the handlers with: the names are those the
    specification uses for the three kinds of error. *)
Definition spec_errors : ScriptErrors :=
  {| illegalArgumentError m := {| name := "IllegalArgument"; message := m |};
     newPageWaitTimeoutError m := {| name := "NewPageWaitTimeout"; message := m |};
     CONTENT_SCRIPT_ABORTED_ERROR := "AbortedExecution" |}.

(** ** Concrete inputs *)

Definition navigated_away : JsError :=
  {| name := "AbortedExecution"; message := "the tab navigated away" |}.

Definition script_crashed : JsError :=
  {| name := "TypeError"; message := "x is not a function" |}.

(** At instant 1000 the only live tab is [tab1]; navigation takes a quarter
    of a second. *)
Definition a_world (replies : list (Reply ExecutionOutcome)) (newContent : option Z)
  : World :=
  {| now := 1000;
     liveTabs := {["tab1"]};
     createReply := Some (40, Fulfilled {| tab_id := "tab2" |});
     navigateReply := Some (250, Fulfilled (JsString "loaded"));
     runReplies := replies;
     newContentAfter := newContent;
     log := [] |}.

Definition a_request (tab address : JsValue) : Params :=
  {| id := tab; url := address; code := JsString "click()"; arg := JsNull;
     timeoutMs := 1500 |}.

Definition three_aborts : list (Reply ExecutionOutcome) :=
  [Some (10, Rejected navigated_away);
   Some (20, Rejected navigated_away);
   Some (30, Rejected navigated_away)].

(** ** Tactics *)

(** A handler whose guard on [id] is decided by [lemma]. *)
Ltac guard_fails lemma :=
  intros; unfold navigateTab, run, wait, waitForNewPage, bind;
  erewrite lemma by eassumption; reflexivity.

(** Membership of a given string in a given set of live tabs, by
    computation. *)
Ltac live_tab :=
  match goal with
  | |- ?s ∈ ?tabs => apply (bool_decide_unpack (s ∈ tabs)); vm_compute; exact I
  end.

Ltac no_live_tab :=
  let s := fresh "s" in
  intros s; try (intros [= <-]); try discriminate;
  match goal with
  | |- ?s ∉ ?tabs => apply (bool_decide_unpack (s ∉ tabs)); vm_compute; exact I
  end.

(** ** Further vocabulary *)

(** The answer the next call of [runContentScript] gets. *)
Definition first_reply (w : World) : Reply ExecutionOutcome :=
  mjoin (M:=option) (head (runReplies w)).

(** How a handler that awaits a reply and does nothing else ends. *)
Definition ends_as {A} (r : Reply A) (result : A -> JsValue) : Completion JsValue :=
  match r with
  | Some (_, Fulfilled a) => Returned (result a)
  | Some (_, Rejected e) => Thrown e
  | None => Pending
  end.

(** The script executions, each with the instant it was started at. *)
Definition timed_executions (l : list (Z * Call)) : list (Z * ExecContext) :=
  omap (fun tc => match snd tc with
                  | runContentScript_call _ _ ctx => Some (fst tc, ctx)
                  | _ => None
                  end) l.

(** The timers started. *)
Definition timers (l : list (Z * Call)) : list (Z * Z) :=
  omap (fun tc => match snd tc with
                  | delay_call ms => Some (fst tc, ms)
                  | _ => None
                  end) l.

(** The names under which the module registers its handlers. *)
Definition command_names : list string :=
  ["tabs.create"; "tabs.navigate"; "tabs.run"; "tabs.wait"; "tabs.waitForNewPage"].

(** The world in which attempt number [n] of [wait], made in [w], has
    called [runContentScript] and awaits its answer. *)
Definition attempt_started (p : Params) (waitMetadata : Metadata) (n : nat)
           (w : World) : World :=
  record (runContentScript_call (id p) (code p)
            {| ctx_arg := arg p;
               ctx_metadata :=
                 Object_assign
                   {| attemptNumber := Some n; runBeginTime := Some (now w);
                      waitBeginTime := None |}
                   waitMetadata |})
    (set_runReplies (tail (runReplies w)) w).

(** The calls of the attempts of [wait] numbered [n], [n + 1], ... when
    they are started at the given instants, [t0] being the instant [wait]
    was entered at. *)
Fixpoint attempt_calls (p : Params) (t0 : Z) (n : nat) (instants : list Z)
  : list (Z * Call) :=
  match instants with
  | [] => []
  | t :: later =>
      (t, runContentScript_call (id p) (code p)
            {| ctx_arg := arg p;
               ctx_metadata := {| attemptNumber := Some n;
                                  runBeginTime := Some t;
                                  waitBeginTime := Some t0 |} |})
      :: attempt_calls p t0 (S n) later
  end.

(** [v] is the id of a live tab. *)
Definition live (w : World) (v : JsValue) : Prop :=
  exists s, v = JsString s /\ s ∈ liveTabs w.

(** [v] is a string. *)
Definition is_string (v : JsValue) : Prop := exists s, v = JsString s.

(** The instants at which executions begin when the first begins at [t]
    and each begins as the one before it settles. *)
Fixpoint starts {A} (t : Z) (rs : list (Reply A)) : list Z :=
  match rs with
  | [] => []
  | r :: rs' => t :: starts (t + duration r) rs'
  end.

(** ** Decimal numerals *)

(** The value of a decimal digit. *)
Definition digit_value (c : ascii) : option Z :=
  let n := Z.of_N (N_of_ascii c) in
  if (48 <=? n) && (n <=? 57) then Some (n - 48) else None.

(** The number a string of digits denotes, read from the left, when the
    digits before it denote [acc]. *)
Fixpoint read_digits (s : string) (acc : Z) : option Z :=
  match s with
  | "" => Some acc
  | String c s' =>
      match digit_value c with
      | Some d => read_digits s' (10 * acc + d)
      | None => None
      end
  end.

(** A numeral cut at its point: what is before it and, when there is a
    point, what is after it. *)
Fixpoint split_point (s : string) : string * option string :=
  match s with
  | "" => ("", None)
  | String c s' =>
      if (c =? ".")%char then ("", Some s')
      else (String c (fst (split_point s')), snd (split_point s'))
  end.

(** The value of a decimal numeral as a pair [(m, k)] that stands for
    [m / 10 ^ k]: [m] is what the digits denote with the point left out and
    [k] is the number of digits after the point. Both parts must have a
    digit. *)
Definition decimal_value (s : string) : option (Z * nat) :=
  match split_point s with
  | ("", _) => None
  | (i, None) =>
      match read_digits i 0 with
      | Some m => Some (m, 0%nat)
      | None => None
      end
  | (_, Some "") => None
  | (i, Some f) =>
      match read_digits (i +:+ f) 0 with
      | Some m => Some (m, String.length f)
      | None => None
      end
  end.

(** The integer part is [0] or does not begin with [0]. *)
Definition no_leading_zero (i : string) : bool :=
  match i with
  | "" => false
  | String c "" => true
  | String c _ => negb (c =? "0")%char
  end.

(** The fraction part has a digit and does not end with [0]. *)
Fixpoint no_trailing_zero (f : string) : bool :=
  match f with
  | "" => false
  | String c "" => negb (c =? "0")%char
  | String _ f' => no_trailing_zero f'
  end.

(** A numeral with no digit to spare: no zero in front of the integer
    part, none at the end of the fraction part, and no point without a
    fraction. *)
Definition shortest_decimal (s : string) : bool :=
  no_leading_zero (fst (split_point s))
  && match snd (split_point s) with
     | None => true
     | Some f => no_trailing_zero f
     end.

(** ** Evaluation lemmas *)

Example div1000_toString_1500 : div1000_toString 1500 = "1.5".
Proof. reflexivity. Qed.

Example div1000_toString_30000 : div1000_toString 30000 = "30".
Proof. reflexivity. Qed.

Example div1000_toString_250 : div1000_toString 250 = "0.25".
Proof. reflexivity. Qed.

Example div1000_toString_1 : div1000_toString 1 = "0.001".
Proof. reflexivity. Qed.

Lemma prefix_String c p c' s :
  String.prefix (String c p) (String c' s) = Ascii.eqb c c' && String.prefix p s.
Proof.
  cbn [String.prefix]. destruct (ascii_dec c c') as [->|Hne].
  - by rewrite Ascii.eqb_refl.
  - apply Ascii.eqb_neq in Hne. by rewrite Hne.
Qed.

Lemma ALLOWED_URL_REGEXP_spec (u : string) :
  match_here ALLOWED_URL_REGEXP u = absolute_http u.
Proof.
  unfold absolute_http, ALLOWED_URL_REGEXP.
  do 4 (destruct u as [|? u]; [reflexivity|];
        rewrite !prefix_String; cbn [match_here];
        destruct (Ascii.eqb _ _); [cbn [andb]|reflexivity]).
  destruct u as [|x u]; [reflexivity|].
  rewrite !prefix_String. cbn [match_here].
  destruct (Ascii.eqb_spec "s" x) as [<-|Hs]; cbn [andb orb].
  - replace (Ascii.eqb ":" "s") with false by reflexivity. cbn [andb orb].
    rewrite orb_false_r.
    do 3 (destruct u as [|? u]; [reflexivity|];
        rewrite ?prefix_String; cbn [match_here];
        destruct (Ascii.eqb _ _); [cbn [andb]|reflexivity]).
    by destruct u.
  - rewrite orb_false_r.
    destruct (Ascii.eqb ":" x); [cbn [andb]|reflexivity].
    do 2 (destruct u as [|? u]; [reflexivity|];
        rewrite ?prefix_String; cbn [match_here];
        destruct (Ascii.eqb _ _); [cbn [andb]|reflexivity]).
    by destruct u.
Qed.

(** The guard [typeof id !== 'string' || !tabManager.hasTab(id)], in its
    three cases. *)
Lemma id_guard_live (v : JsValue) (s : string) (w : World) :
  v = JsString s -> s ∈ liveTabs w ->
  lazy_or (typeof v !== "string") (not_ (tabManager.hasTab v)) w
  = (Returned false, record (hasTab_call v) w).
Proof.
  intros -> Hs. unfold lazy_or.
  change (typeof (JsString s) !== "string") with false.
  unfold not_, bind, tabManager.hasTab, ret.
  by rewrite bool_decide_eq_true_2.
Qed.

Lemma id_guard_unknown (v : JsValue) (s : string) (w : World) :
  v = JsString s -> s ∉ liveTabs w ->
  lazy_or (typeof v !== "string") (not_ (tabManager.hasTab v)) w
  = (Returned true, record (hasTab_call v) w).
Proof.
  intros -> Hs. unfold lazy_or.
  change (typeof (JsString s) !== "string") with false.
  unfold not_, bind, tabManager.hasTab, ret.
  by rewrite bool_decide_eq_false_2.
Qed.

Lemma id_guard_not_string (v : JsValue) (w : World) :
  (forall s, v <> JsString s) ->
  lazy_or (typeof v !== "string") (not_ (tabManager.hasTab v)) w
  = (Returned true, w).
Proof.
  intros Hv. destruct v; try reflexivity. by destruct (Hv s).
Qed.

Lemma calls_since_record (w : World) (c : Call) :
  calls_since w (record c w) = [(now w, c)].
Proof. unfold calls_since, record; cbn [log]. apply drop_app_length. Qed.

Section properties.
Context {errors : ScriptErrors}.

Lemma navigateTab_bad_url (p : Params) (w : World) (s : string) :
  id p = JsString s -> s ∈ liveTabs w ->
  (forall u, url p = JsString u -> absolute_http u = false) ->
  navigateTab p w
  = (Thrown (illegalArgumentError
               "tabs.navigate(): `url` argument must be an absolute HTTP URL"),
     record (hasTab_call (id p)) w).
Proof.
  intros Hid Hlive Hurl. unfold navigateTab, bind.
  rewrite (id_guard_live _ s) by done.
  assert ((typeof (url p) !== "string")
          || negb (RegExp_test ALLOWED_URL_REGEXP (url p)) = true) as ->; [|done].
  destruct (url p) as [| | | | |u|]; try reflexivity.
  cbn [RegExp_test]. rewrite ALLOWED_URL_REGEXP_spec, Hurl; done.
Qed.

Lemma navigateTab_good_url (p : Params) (w : World) (s u : string) :
  id p = JsString s -> s ∈ liveTabs w ->
  url p = JsString u -> absolute_http u = true ->
  navigateTab p w
  = await (promise_of (now w) (navigateReply w))
          (record (navigateTab_call (id p) (url p)) (record (hasTab_call (id p)) w)).
Proof.
  intros Hid Hlive Hu Habs. unfold navigateTab, bind.
  rewrite (id_guard_live _ s) by done. rewrite Hu.
  cbn [RegExp_test]. rewrite ALLOWED_URL_REGEXP_spec, Habs.
  change (typeof (JsString u) !== "string") with false. cbn [orb negb].
  unfold tabManager.navigateTab.
  by destruct (await _ _) as [[] ?].
Qed.

(** C9. [navigateTab] with a live tab id: a [url] that is not a string, or
    is a string that is not an absolute http(s) URL, fails with
    IllegalArgument after the liveness check and nothing else is called;
    an absolute http(s) URL is passed to the tab manager's [navigateTab],
    and the handler ends as that call ends: it returns the value the
    promise is fulfilled with, throws the error it is rejected with, or
    stays pending with it. *)
Theorem navigateTab_checks_url_then_delegates (p : Params) (w : World) (s : string) :
  id p = JsString s -> s ∈ liveTabs w ->
  ((forall u, url p = JsString u -> absolute_http u = false) ->
     fst (navigateTab p w)
     = Thrown (illegalArgumentError
                 "tabs.navigate(): `url` argument must be an absolute HTTP URL")
     /\ calls_since w (snd (navigateTab p w)) = [(now w, hasTab_call (id p))])
  /\
  (forall u, url p = JsString u -> absolute_http u = true ->
     fst (navigateTab p w)
     = match navigateReply w with
       | Some (_, Fulfilled result) => Returned result
       | Some (_, Rejected err) => Thrown err
       | None => Pending
       end
     /\ calls_since w (snd (navigateTab p w))
        = [(now w, hasTab_call (id p)); (now w, navigateTab_call (id p) (url p))]).
Proof.
  intros Hid Hlive. split.
  - intros Hurl. rewrite (navigateTab_bad_url p w s) by done.
    split; [reflexivity|]. apply calls_since_record.
  - intros u Hu Habs. rewrite (navigateTab_good_url p w s u) by done.
    unfold await, promise_of.
    destruct (navigateReply w) as [[d [v|e]]|];
      (split; [reflexivity|]); unfold calls_since, set_now, record; cbn [log snd];
      rewrite <- app_assoc; apply drop_app_length.
Qed.

(** *** Rejected arguments *)

Lemma navigateTab_id_not_string p w :
  (forall s, id p <> JsString s) ->
  navigateTab p w
  = (Thrown (illegalArgumentError "tabs.navigate(): invalid argument `id`"), w).
Proof. guard_fails id_guard_not_string. Qed.

Lemma navigateTab_id_unknown p w s :
  id p = JsString s -> s ∉ liveTabs w ->
  navigateTab p w
  = (Thrown (illegalArgumentError "tabs.navigate(): invalid argument `id`"),
     record (hasTab_call (id p)) w).
Proof. guard_fails id_guard_unknown. Qed.

Lemma run_id_not_string p w :
  (forall s, id p <> JsString s) ->
  run p w = (Thrown (illegalArgumentError "tabs.run(): invalid argument `id`"), w).
Proof. guard_fails id_guard_not_string. Qed.

Lemma run_id_unknown p w s :
  id p = JsString s -> s ∉ liveTabs w ->
  run p w
  = (Thrown (illegalArgumentError "tabs.run(): invalid argument `id`"),
     record (hasTab_call (id p)) w).
Proof. guard_fails id_guard_unknown. Qed.

Lemma wait_id_not_string fuel p w :
  (forall s, id p <> JsString s) ->
  wait fuel p w
  = (Thrown (illegalArgumentError "tabs.wait(): invalid argument `id`"), w).
Proof. guard_fails id_guard_not_string. Qed.

Lemma wait_id_unknown fuel p w s :
  id p = JsString s -> s ∉ liveTabs w ->
  wait fuel p w
  = (Thrown (illegalArgumentError "tabs.wait(): invalid argument `id`"),
     record (hasTab_call (id p)) w).
Proof. guard_fails id_guard_unknown. Qed.

Lemma waitForNewPage_id_not_string p w :
  (forall s, id p <> JsString s) ->
  waitForNewPage p w
  = (Thrown (illegalArgumentError "tabs.run(): invalid argument `id`"), w).
Proof. guard_fails id_guard_not_string. Qed.

Lemma waitForNewPage_id_unknown p w s :
  id p = JsString s -> s ∉ liveTabs w ->
  waitForNewPage p w
  = (Thrown (illegalArgumentError "tabs.run(): invalid argument `id`"),
     record (hasTab_call (id p)) w).
Proof. guard_fails id_guard_unknown. Qed.

Lemma waitForNewPage_code_not_string p w s :
  id p = JsString s -> s ∈ liveTabs w ->
  (forall c, code p <> JsString c) ->
  waitForNewPage p w
  = (Thrown (illegalArgumentError "tabs.run(): invalid argument `code`"),
     record (hasTab_call (id p)) w).
Proof.
  intros Hid Hlive Hcode. unfold waitForNewPage, bind.
  rewrite (id_guard_live _ s) by done.
  assert ((typeof (code p) !== "string") = true) as ->; [|done].
  destruct (code p); try reflexivity. by destruct (Hcode s0).
Qed.

(** An id is a string or it is not; a string is a live tab or it is not. *)
Lemma id_cases (v : JsValue) (w : World) :
  (forall s, v <> JsString s)
  \/ (exists s, v = JsString s /\ s ∉ liveTabs w)
  \/ (exists s, v = JsString s /\ s ∈ liveTabs w).
Proof.
  destruct v; try (left; congruence).
  destruct (decide (s ∈ liveTabs w)); right; [right|left]; eauto.
Qed.

Lemma string_cases (v : JsValue) :
  (forall s, v <> JsString s) \/ (exists s, v = JsString s).
Proof. destruct v; eauto; left; congruence. Qed.

(** *** The text of the seconds *)

Lemma digit_of_pretty_N_char (d : N) :
  (d < 10)%N ->
  digit_value (pretty_N_char d) = Some (Z.of_N d)
  /\ (pretty_N_char d =? ".")%char = false
  /\ ((pretty_N_char d =? "0")%char = true <-> d = 0%N).
Proof.
  intros Hd.
  assert (d = 0 \/ d = 1 \/ d = 2 \/ d = 3 \/ d = 4 \/ d = 5 \/ d = 6 \/ d = 7
          \/ d = 8 \/ d = 9)%N as Hcases by lia.
  repeat (destruct Hcases as [->|Hcases]); try subst d;
    (split; [reflexivity|split; [reflexivity|]]); cbn; split; (done || lia).
Qed.

Lemma pretty_N_go_append (x : N) : forall s t,
  pretty_N_go x s +:+ t = pretty_N_go x (s +:+ t).
Proof.
  induction (N.lt_wf_0 x) as [x _ IH]; intros s t.
  destruct (decide (x = 0%N)) as [->|Hx]; [by rewrite !pretty_N_go_0|].
  rewrite (pretty_N_go_step x s), (pretty_N_go_step x (s +:+ t)) by lia.
  rewrite IH by (apply N.div_lt; lia). reflexivity.
Qed.

Lemma read_pretty_N_go (x : N) : forall s,
  read_digits (pretty_N_go x s) 0 = read_digits s (Z.of_N x).
Proof.
  induction (N.lt_wf_0 x) as [x _ IH]; intros s.
  destruct (decide (x = 0%N)) as [->|Hx]; [by rewrite pretty_N_go_0|].
  rewrite pretty_N_go_step by lia.
  rewrite IH by (apply N.div_lt; lia). cbn [read_digits].
  destruct (digit_of_pretty_N_char (x `mod` 10)%N) as (-> & _);
    [apply N.mod_lt; lia|].
  f_equal. pose proof (N.div_mod x 10). lia.
Qed.

Lemma split_pretty_N_go (x : N) : forall s,
  split_point (pretty_N_go x s)
  = (pretty_N_go x (fst (split_point s)), snd (split_point s)).
Proof.
  induction (N.lt_wf_0 x) as [x _ IH]; intros s.
  destruct (decide (x = 0%N)) as [->|Hx];
    [rewrite !pretty_N_go_0; by destruct (split_point s)|].
  rewrite (pretty_N_go_step x s), (pretty_N_go_step x (fst (split_point s))) by lia.
  rewrite IH by (apply N.div_lt; lia). cbn [split_point].
  destruct (digit_of_pretty_N_char (x `mod` 10)%N) as (_ & -> & _);
    [apply N.mod_lt; lia|]. reflexivity.
Qed.

Lemma head_pretty_N_go (x : N) : forall s,
  (0 < x)%N ->
  exists c rest, pretty_N_go x s = String c rest /\ (c =? "0")%char = false.
Proof.
  induction (N.lt_wf_0 x) as [x _ IH]; intros s Hx.
  rewrite pretty_N_go_step by done.
  destruct (decide (x `div` 10 = 0)%N) as [Hsmall|Hbig].
  - rewrite Hsmall, pretty_N_go_0. eexists _, _. split; [reflexivity|].
    destruct (digit_of_pretty_N_char (x `mod` 10)%N) as (_ & _ & Hzero);
      [apply N.mod_lt; lia|].
    destruct (pretty_N_char (x `mod` 10) =? "0")%char eqn:Hc; [|done].
    destruct Hzero as [Hzero _]. specialize (Hzero eq_refl).
    pose proof (N.div_mod x 10). lia.
  - apply IH; [apply N.div_lt; lia|by apply N.neq_0_lt_0].
Qed.

(** The integer part [pretty q] of the text, for [q] not negative. *)
Lemma read_pretty (q : Z) (t : string) :
  0 <= q -> read_digits (pretty q +:+ t) 0 = read_digits t q.
Proof.
  intros Hq. destruct q as [|x|x]; [reflexivity| |lia].
  change (pretty (Z.pos x)) with (pretty_N_go (N.pos x) "").
  by rewrite pretty_N_go_append, read_pretty_N_go.
Qed.

Lemma split_pretty (q : Z) (t : string) :
  0 <= q ->
  split_point (pretty q +:+ t)
  = (pretty q +:+ fst (split_point t), snd (split_point t)).
Proof.
  intros Hq. destruct q as [|x|x]; [reflexivity| |lia].
  change (pretty (Z.pos x)) with (pretty_N_go (N.pos x) "").
  by rewrite !pretty_N_go_append, split_pretty_N_go.
Qed.

Lemma pretty_no_leading_zero (q : Z) :
  0 <= q ->
  no_leading_zero (pretty q +:+ "") = true
  /\ exists c rest, pretty q +:+ "" = String c rest.
Proof.
  intros Hq. destruct q as [|x|x]; [split; [reflexivity|by eexists _, _]| |lia].
  change (pretty (Z.pos x)) with (pretty_N_go (N.pos x) "").
  rewrite pretty_N_go_append.
  destruct (head_pretty_N_go (N.pos x) ("" +:+ "")) as (c & rest & -> & Hc); [lia|].
  split; [|by eexists _, _]. cbn. rewrite Hc. by destruct rest.
Qed.

Lemma pretty_digit (d : Z) :
  0 <= d < 10 ->
  exists c,
    pretty d = String c ""
    /\ digit_value c = Some d
    /\ ((c =? "0")%char = true <-> d = 0).
Proof.
  intros Hd.
  assert (d = 0 \/ d = 1 \/ d = 2 \/ d = 3 \/ d = 4 \/ d = 5 \/ d = 6 \/ d = 7
          \/ d = 8 \/ d = 9) as Hcases by lia.
  repeat (destruct Hcases as [->|Hcases]); try subst d;
    (eexists; split; [reflexivity|split; [reflexivity|]]); cbn; split; (done || lia).
Qed.

Lemma append_empty_r (s : string) : s +:+ "" = s.
Proof.
  induction s as [|c s IH]; [done|].
  change (String c (s +:+ "") = String c s). by rewrite IH.
Qed.

Lemma decimal_value_split (s i : string) (f : option string) c rest :
  split_point s = (i, f) -> i = String c rest ->
  decimal_value s
  = match f with
    | None =>
        match read_digits i 0 with
        | Some m => Some (m, 0%nat)
        | None => None
        end
    | Some "" => None
    | Some f =>
        match read_digits (i +:+ f) 0 with
        | Some m => Some (m, String.length f)
        | None => None
        end
    end.
Proof. intros Hsplit ->. unfold decimal_value. by rewrite Hsplit. Qed.

(** The text of the seconds denotes [timeoutMs / 1000] and has no digit
    to spare. *)
Lemma div1000_toString_value (ms : Z) :
  0 <= ms ->
  exists m k,
    decimal_value (div1000_toString ms) = Some (m, k)
    /\ m * 1000 = ms * 10 ^ Z.of_nat k
    /\ shortest_decimal (div1000_toString ms) = true.
Proof.
  intros Hms. unfold div1000_toString.
  destruct (Z.ltb_spec ms 0) as [?|_]; [lia|]. rewrite Z.abs_eq by done.
  change ("" +:+ ?x) with x.
  set (q := ms / 1000). set (r := ms mod 1000).
  assert (0 <= q) as Hq by (apply Z.div_pos; lia).
  assert (0 <= r < 1000) as Hr by (apply Z.mod_pos_bound; lia).
  assert (ms = 1000 * q + r) as Hqr by (apply Z.div_mod; lia).
  destruct (pretty_no_leading_zero q Hq) as (Hlead & c & rest & Hhead).
  unfold shortest_decimal, fraction_digits.
  destruct (Z.eqb_spec r 0) as [Hr0|Hr0].
  - exists q, 0%nat.
    pose proof (split_pretty q "" Hq) as Hsplit. cbn [split_point fst snd] in Hsplit.
    rewrite (decimal_value_split _ _ _ c rest Hsplit Hhead), Hsplit.
    rewrite read_pretty by done. cbn [read_digits fst snd].
    split; [done|]. split; [cbn; lia|by rewrite Hlead].
  - set (d1 := r / 100). set (d2 := (r / 10) mod 10). set (d3 := r mod 10).
    assert (0 <= d1 < 10) as Hd1
        by (split; [apply Z.div_pos; lia|apply Z.div_lt_upper_bound; lia]).
    assert (0 <= d2 < 10) as Hd2 by (apply Z.mod_pos_bound; lia).
    assert (0 <= d3 < 10) as Hd3 by (apply Z.mod_pos_bound; lia).
    assert (r = 100 * d1 + 10 * d2 + d3) as Hdigits.
    { unfold d1, d2, d3.
      pose proof (Z.div_mod r 10). pose proof (Z.div_mod (r / 10) 10).
      rewrite (Z.div_div r 10 10) in * by lia. change (10 * 10) with 100 in *. lia. }
    destruct (pretty_digit d1 Hd1) as (c1 & -> & Hc1 & Hz1).
    destruct (pretty_digit d2 Hd2) as (c2 & -> & Hc2 & Hz2).
    destruct (pretty_digit d3 Hd3) as (c3 & -> & Hc3 & Hz3).
    assert (forall ds cf restf,
              ds = String cf restf ->
              split_point (pretty q +:+ "." +:+ ds) = (pretty q +:+ "", Some ds)) as Hsplit.
    { intros ds cf restf _. by rewrite split_pretty. }
    destruct (Z.eqb_spec d3 0) as [H3|H3]; [destruct (Z.eqb_spec d2 0) as [H2|H2]|];
      cbn [negb].
    + exists (10 * q + d1), 1%nat.
      change ("." +:+ String c1 "") with ("." +:+ (String c1 "")).
      rewrite (decimal_value_split _ _ _ c rest (Hsplit _ _ _ eq_refl) Hhead).
      rewrite (Hsplit _ c1 "" eq_refl). cbn [fst snd].
      rewrite append_empty_r, read_pretty by done. cbn [read_digits]. rewrite Hc1.
      split; [done|]. split; [cbn; lia|]. rewrite <- (append_empty_r (pretty q)) at 1.
      rewrite Hlead. cbn.
      destruct (c1 =? "0")%char; [|done]. destruct Hz1 as [Hz1 _]. specialize (Hz1 eq_refl). lia.
    + exists (10 * (10 * q + d1) + d2), 2%nat.
      change ("." +:+ String c1 "" +:+ String c2 "") with ("." +:+ String c1 (String c2 "")).
      rewrite (decimal_value_split _ _ _ c rest (Hsplit _ _ _ eq_refl) Hhead).
      rewrite (Hsplit _ c1 (String c2 "") eq_refl). cbn [fst snd].
      rewrite append_empty_r, read_pretty by done. cbn [read_digits]. rewrite Hc1, Hc2.
      split; [done|]. split; [cbn; lia|]. rewrite <- (append_empty_r (pretty q)) at 1.
      rewrite Hlead. cbn.
      destruct (c2 =? "0")%char; [|done]. destruct Hz2 as [Hz2 _]. specialize (Hz2 eq_refl). lia.
    + exists (10 * (10 * (10 * q + d1) + d2) + d3), 3%nat.
      change ("." +:+ String c1 "" +:+ String c2 "" +:+ String c3 "")
        with ("." +:+ String c1 (String c2 (String c3 ""))).
      rewrite (decimal_value_split _ _ _ c rest (Hsplit _ _ _ eq_refl) Hhead).
      rewrite (Hsplit _ c1 (String c2 (String c3 "")) eq_refl). cbn [fst snd].
      rewrite append_empty_r, read_pretty by done. cbn [read_digits].
      rewrite Hc1, Hc2, Hc3.
      split; [done|]. split; [cbn; lia|]. rewrite <- (append_empty_r (pretty q)) at 1.
      rewrite Hlead. cbn.
      destruct (c3 =? "0")%char; [|done]. destruct Hz3 as [Hz3 _]. specialize (Hz3 eq_refl). lia.
Qed.

(** *** [waitForNewPage] *)

(** The end of [waitForNewPage]: the timer and the race. *)
Lemma race_new_page_wait (p : Params) (arrival : option Z) (w : World) :
  (let* timer := delay (timeoutMs p) in
   let* _ :=
     await (Promise_race
              [(fun t => (t, Fulfilled tt)) <$> arrival;
               Promise_then timer (fun _ =>
                 Promise_reject
                   (newPageWaitTimeoutError
                      ("Waiting for a new page timed out after "
                       +:+ div1000_toString (timeoutMs p)
                       +:+ " seconds")))]) in
   ret (JsObject [("reject", JsNull)])) w
  = new_page_wait p arrival w.
Proof.
  unfold new_page_wait, bind, delay, Promise_race, Promise_then, Promise_reject,
    timed_out, reject_object.
  cbn [foldr]. destruct arrival as [t|]; cbn [fmap option_fmap option_map race2].
  - destruct (now w + Z.max 0 (timeoutMs p) <? t); reflexivity.
  - reflexivity.
Qed.

Lemma waitForNewPage_valid p w s c :
  id p = JsString s -> s ∈ liveTabs w -> code p = JsString c ->
  waitForNewPage p w
  = match mjoin (head (runReplies w)) with
    | None => (Pending, script_started p w)
    | Some (d, r) =>
        let w2 := set_now (Z.max (now w) (now w + d)) (script_started p w) in
        let arrival := (fun n => now w + n) <$> newContentAfter w in
        match r with
        | Fulfilled o =>
            if truthy (outcome_reject o)
            then (Returned (reject_object (outcome_reject o)), w2)
            else new_page_wait p arrival w2
        | Rejected e =>
            if name e === CONTENT_SCRIPT_ABORTED_ERROR
            then new_page_wait p arrival w2
            else (Thrown e, w2)
        end
    end.
Proof.
  intros Hid Hlive Hcode.
  unfold waitForNewPage, bind at 1.
  rewrite (id_guard_live _ s) by done.
  assert ((typeof (code p) !== "string") = false) as -> by (by rewrite Hcode).
  unfold bind at 1. unfold Date_now at 1.
  unfold bind at 1. unfold tabManager.waitForNewContent at 1.
  unfold bind at 1. unfold try_catch at 1.
  unfold bind at 1. unfold tabManager.runContentScript at 1.
  unfold bind at 1.
  change (now (record _ w)) with (now w).
  change (newContentAfter (record _ w)) with (newContentAfter w).
  change (runReplies (record _ (record _ w))) with (runReplies w).
  fold (script_started p w).
  change (now (record _ (record _ w))) with (now w).
  assert (match newContentAfter w with
          | Some d => Some (now w + d, Fulfilled ())
          | None => None
          end
          = (fun t => (t, Fulfilled tt)) <$> ((fun n => now w + n) <$> newContentAfter w))
    as -> by (by destruct (newContentAfter w)).
  destruct (mjoin (head (runReplies w))) as [[d [o|e]]|];
    cbn [promise_of await]; change (now (script_started p w)) with (now w).
  - destruct (truthy (outcome_reject o)); [reflexivity|].
    unfold ret at 1. apply race_new_page_wait.
  - destruct (name e === CONTENT_SCRIPT_ABORTED_ERROR);
      cbn [negb]; [|reflexivity].
    unfold ret at 1. apply race_new_page_wait.
  - reflexivity.
Qed.

(** The calls [waitForNewPage] has made once the script is started. *)
Lemma calls_since_script_started p w :
  calls_since w (script_started p w)
  = [(now w, hasTab_call (id p));
     (now w, waitForNewContent_call (id p));
     (now w, runContentScript_call (id p) (code p)
               {| ctx_arg := arg p;
                  ctx_metadata := {| attemptNumber := None;
                                     runBeginTime := Some (now w);
                                     waitBeginTime := None |} |})].
Proof.
  unfold calls_since, script_started, record, set_runReplies; cbn [log now].
  rewrite <- !app_assoc. apply drop_app_length.
Qed.

Lemma calls_since_set_now w t w' :
  calls_since w (set_now t w') = calls_since w w'.
Proof. reflexivity. Qed.

Lemma calls_since_snoc w w' c :
  (length (log w) <= length (log w'))%nat ->
  calls_since w (record c w') = calls_since w w' ++ [(now w', c)].
Proof.
  intros Hle. unfold calls_since, record; cbn [log].
  by rewrite drop_app_le.
Qed.

Lemma script_started_log_length p w :
  (length (log w) <= length (log (script_started p w)))%nat.
Proof.
  unfold script_started, record, set_runReplies; cbn [log].
  rewrite !length_app. lia.
Qed.

(** How [new_page_wait] ends, by the instant new content shows up at. *)
Lemma new_page_wait_in_time p t w :
  t < now w + timeoutMs p ->
  fst (new_page_wait p (Some t) w) = Returned (reject_object JsNull).
Proof.
  intros Ht. unfold new_page_wait.
  destruct (Z.ltb_spec (now w + Z.max 0 (timeoutMs p)) t); [lia|reflexivity].
Qed.

Lemma new_page_wait_late p arrival w :
  0 <= timeoutMs p ->
  (forall t, arrival = Some t -> now w + timeoutMs p < t) ->
  fst (new_page_wait p arrival w)
  = Thrown (timed_out (div1000_toString (timeoutMs p))).
Proof.
  intros Hms Ht. unfold new_page_wait. destruct arrival as [t|]; [|reflexivity].
  specialize (Ht t eq_refl).
  destruct (Z.ltb_spec (now w + Z.max 0 (timeoutMs p)) t); [reflexivity|lia].
Qed.

Lemma new_page_wait_either p arrival w :
  fst (new_page_wait p arrival w) = Returned (reject_object JsNull)
  \/ fst (new_page_wait p arrival w)
     = Thrown (timed_out (div1000_toString (timeoutMs p))).
Proof.
  unfold new_page_wait. destruct arrival as [t|]; [|by right].
  destruct (_ <? _); [by right|by left].
Qed.

Lemma new_page_wait_log p arrival w :
  log (snd (new_page_wait p arrival w)) = log w ++ [(now w, delay_call (timeoutMs p))].
Proof.
  unfold new_page_wait. destruct arrival as [t|]; [|reflexivity].
  destruct (_ <? _); reflexivity.
Qed.

(** [waitForNewPage] once the script has completed without a truthy
    [reject]. *)
Lemma waitForNewPage_waits p w s c d r rest :
  id p = JsString s -> s ∈ liveTabs w -> code p = JsString c ->
  runReplies w = Some (d, r) :: rest -> 0 <= d ->
  completes_without_reject r = true ->
  waitForNewPage p w
  = new_page_wait p ((fun n => now w + n) <$> newContentAfter w)
      (set_now (now w + d) (script_started p w)).
Proof.
  intros Hid Hlive Hcode Hrun Hd Hr.
  rewrite (waitForNewPage_valid p w s c) by done. rewrite Hrun.
  cbn [head mjoin option_join]. cbv zeta. rewrite Z.max_r by lia.
  destruct r as [o|e]; cbn [completes_without_reject] in Hr.
  - apply negb_true_iff in Hr. by rewrite Hr.
  - by rewrite Hr.
Qed.

Lemma calls_since_new_page_wait p w arrival t :
  calls_since w (snd (new_page_wait p arrival (set_now t (script_started p w))))
  = calls_since w (script_started p w) ++ [(t, delay_call (timeoutMs p))].
Proof.
  unfold calls_since. rewrite new_page_wait_log. cbn [set_now log now].
  by rewrite drop_app_le by apply script_started_log_length.
Qed.

(** C2. When the script execution of [waitForNewPage] completes, [d]
    milliseconds after it was started, without a truthy [reject] (it
    resolved with a falsy or absent [reject], or it was aborted), the timer
    of [timeoutMs] milliseconds is started then, at [now + d], after the
    call of [runContentScript] and not when the handler was entered: new
    content that shows up before [now + d + timeoutMs] ends the call with
    [{reject: null}], and when new content never shows up or only after
    that instant the call fails with the NewPageWaitTimeout error. Its
    message is "Waiting for a new page timed out after", a decimal numeral
    and "seconds"; the numeral denotes [timeoutMs / 1000] exactly (its
    digits read [m] with [k] of them after the point, and
    [m / 10 ^ k = timeoutMs / 1000]) and has no digit to spare. The timeout
    is a whole number of milliseconds below 10^15, where JavaScript prints
    the quotient exactly. *)
Theorem waitForNewPage_timer_starts_after_script p w s c d r rest :
  id p = JsString s -> s ∈ liveTabs w -> code p = JsString c ->
  runReplies w = Some (d, r) :: rest -> 0 <= d ->
  completes_without_reject r = true ->
  0 <= timeoutMs p -> timeoutMs p < 10 ^ 15 ->
  calls_since w (snd (waitForNewPage p w))
  = [(now w, hasTab_call (id p));
     (now w, waitForNewContent_call (id p));
     (now w, runContentScript_call (id p) (code p)
               {| ctx_arg := arg p;
                  ctx_metadata := {| attemptNumber := None;
                                     runBeginTime := Some (now w);
                                     waitBeginTime := None |} |});
     (now w + d, delay_call (timeoutMs p))]
  /\ (forall n, newContentAfter w = Some n ->
                now w + n < now w + d + timeoutMs p ->
                fst (waitForNewPage p w) = Returned (reject_object JsNull))
  /\ ((forall n, newContentAfter w = Some n ->
                 now w + d + timeoutMs p < now w + n) ->
      exists seconds m k,
        fst (waitForNewPage p w)
        = Thrown (newPageWaitTimeoutError
                    ("Waiting for a new page timed out after "
                     +:+ seconds +:+ " seconds"))
        /\ decimal_value seconds = Some (m, k)
        /\ m * 1000 = timeoutMs p * 10 ^ Z.of_nat k
        /\ shortest_decimal seconds = true).
Proof.
  intros Hid Hlive Hcode Hrun Hd Hr Hms Hbound.
  rewrite (waitForNewPage_waits p w s c d r rest) by done.
  split; [|split].
  - rewrite calls_since_new_page_wait, calls_since_script_started. reflexivity.
  - intros n Hn Hlt. rewrite Hn. by apply new_page_wait_in_time.
  - intros Hlate.
    destruct (div1000_toString_value (timeoutMs p) Hms) as (m & k & Hvalue & Hmk & Hshort).
    exists (div1000_toString (timeoutMs p)), m, k.
    split; [|done]. apply new_page_wait_late; [done|].
    intros t Ht. destruct (newContentAfter w) as [n|]; [|done].
    injection Ht as <-. by apply Hlate.
Qed.

(** [waitForNewPage] when the script resolves with a truthy [reject], and
    when it fails with an error that is not the abort error. *)
Lemma waitForNewPage_truthy_reject p w s c d o rest :
  id p = JsString s -> s ∈ liveTabs w -> code p = JsString c ->
  runReplies w = Some (d, Fulfilled o) :: rest -> 0 <= d ->
  truthy (outcome_reject o) = true ->
  waitForNewPage p w
  = (Returned (reject_object (outcome_reject o)),
     set_now (now w + d) (script_started p w)).
Proof.
  intros Hid Hlive Hcode Hrun Hd Ho.
  rewrite (waitForNewPage_valid p w s c) by done. rewrite Hrun.
  cbn [head mjoin option_join]. cbv zeta. rewrite Z.max_r by lia.
  by rewrite Ho.
Qed.

Lemma waitForNewPage_other_error p w s c d e rest :
  id p = JsString s -> s ∈ liveTabs w -> code p = JsString c ->
  runReplies w = Some (d, Rejected e) :: rest -> 0 <= d ->
  name e <> CONTENT_SCRIPT_ABORTED_ERROR ->
  waitForNewPage p w = (Thrown e, set_now (now w + d) (script_started p w)).
Proof.
  intros Hid Hlive Hcode Hrun Hd He.
  rewrite (waitForNewPage_valid p w s c) by done. rewrite Hrun.
  cbn [head mjoin option_join]. cbv zeta. rewrite Z.max_r by lia.
  apply String.eqb_neq in He. by rewrite He.
Qed.

(** Whatever [waitForNewPage] returns is an object [{reject: ...}]. *)
Lemma waitForNewPage_returns_reject_object p w result :
  fst (waitForNewPage p w) = Returned result ->
  exists v, result = reject_object v.
Proof.
  destruct (id_cases (id p) w) as [Hid|[(s & Hid & Hs)|(s & Hid & Hs)]].
  - by rewrite waitForNewPage_id_not_string.
  - by rewrite (waitForNewPage_id_unknown p w s).
  - destruct (string_cases (code p)) as [Hcode|[c Hcode]].
    + by rewrite (waitForNewPage_code_not_string p w s).
    + rewrite (waitForNewPage_valid p w s c) by done.
      destruct (mjoin (head (runReplies w))) as [[d [o|e]]|]; cbv zeta.
      * destruct (truthy (outcome_reject o)).
        -- intros [= <-]. eauto.
        -- destruct (new_page_wait_either p ((fun n => now w + n) <$> newContentAfter w)
                       (set_now (Z.max (now w) (now w + d)) (script_started p w)))
             as [-> | ->]; [intros [= <-]; eauto|done].
      * destruct (name e === CONTENT_SCRIPT_ABORTED_ERROR); [|done].
        destruct (new_page_wait_either p ((fun n => now w + n) <$> newContentAfter w)
                    (set_now (Z.max (now w) (now w + d)) (script_started p w)))
          as [-> | ->]; [intros [= <-]; eauto|done].
      * done.
Qed.

(** C3 (amended). When the script execution of [waitForNewPage] resolves
    to [{reject: v}] with a truthy [v], the handler returns [{reject: v}] at
    the instant the execution completed, having started no timer, whether
    new content ever shows up or not; and no value [waitForNewPage] ever
    returns is a [{resolve: ...}] outcome: it is always [{reject: ...}]. *)
Theorem waitForNewPage_returns_truthy_reject p w s c d v rest :
  id p = JsString s -> s ∈ liveTabs w -> code p = JsString c ->
  runReplies w = Some (d, Fulfilled (Reject v)) :: rest -> 0 <= d ->
  truthy v = true ->
  fst (waitForNewPage p w) = Returned (reject_object v)
  /\ now (snd (waitForNewPage p w)) = now w + d
  /\ calls_since w (snd (waitForNewPage p w))
     = [(now w, hasTab_call (id p));
        (now w, waitForNewContent_call (id p));
        (now w, runContentScript_call (id p) (code p)
                  {| ctx_arg := arg p;
                     ctx_metadata := {| attemptNumber := None;
                                        runBeginTime := Some (now w);
                                        waitBeginTime := None |} |})]
  /\ (forall p' w' result,
        fst (waitForNewPage p' w') = Returned result ->
        exists x, result = reject_object x).
Proof.
  intros Hid Hlive Hcode Hrun Hd Hv.
  rewrite (waitForNewPage_truthy_reject p w s c d (Reject v) rest) by done.
  repeat split.
  - apply calls_since_script_started.
  - apply waitForNewPage_returns_reject_object.
Qed.

(** C4. When the script execution of [waitForNewPage] fails with the
    abort error, the error goes no further: the handler starts its timer
    and ends as the wait for new content ends, with [{reject: null}] or
    with a NewPageWaitTimeout error, and with [{reject: null}] when new
    content shows up before the timer's deadline. Any other error of
    the execution is thrown by the handler as it is, at the instant of the
    failure and without a timer. *)
Theorem waitForNewPage_swallows_abort_only p w s c d e rest :
  id p = JsString s -> s ∈ liveTabs w -> code p = JsString c ->
  runReplies w = Some (d, Rejected e) :: rest -> 0 <= d ->
  0 <= timeoutMs p ->
  (name e = CONTENT_SCRIPT_ABORTED_ERROR ->
     last (calls_since w (snd (waitForNewPage p w)))
     = Some (now w + d, delay_call (timeoutMs p))
     /\ (fst (waitForNewPage p w) = Returned (reject_object JsNull)
         \/ exists msg,
              fst (waitForNewPage p w) = Thrown (newPageWaitTimeoutError msg))
     /\ (forall n, newContentAfter w = Some n ->
                   now w + n < now w + d + timeoutMs p ->
                   fst (waitForNewPage p w) = Returned (reject_object JsNull)))
  /\ (name e <> CONTENT_SCRIPT_ABORTED_ERROR ->
        fst (waitForNewPage p w) = Thrown e
        /\ now (snd (waitForNewPage p w)) = now w + d
        /\ last (calls_since w (snd (waitForNewPage p w)))
           = Some (now w, runContentScript_call (id p) (code p)
                            {| ctx_arg := arg p;
                               ctx_metadata := {| attemptNumber := None;
                                                  runBeginTime := Some (now w);
                                                  waitBeginTime := None |} |})).
Proof.
  intros Hid Hlive Hcode Hrun Hd Hms. split; intros He.
  - rewrite (waitForNewPage_waits p w s c d (Rejected e) rest)
      by (try done; by apply String.eqb_eq).
    split; [|split].
    + rewrite calls_since_new_page_wait. apply last_snoc.
    + destruct (new_page_wait_either p ((fun n => now w + n) <$> newContentAfter w)
                  (set_now (now w + d) (script_started p w))) as [Hnull|Hlate];
        [by left|right; by eexists].
    + intros n Hn Hlt. rewrite Hn. by apply new_page_wait_in_time.
  - rewrite (waitForNewPage_other_error p w s c d e rest) by done.
    repeat split. cbn [snd]. rewrite calls_since_set_now, calls_since_script_started.
    reflexivity.
Qed.

(** C5. In a call of [waitForNewPage] whose arguments pass the checks,
    the tab manager's [waitForNewContent] is called before its
    [runContentScript], whatever happens next; and new content that shows
    up while the script is executing ends the call with [{reject: null}]
    when the execution completes without a truthy [reject]. *)
Theorem waitForNewPage_observes_before_running p w s c :
  id p = JsString s -> s ∈ liveTabs w -> code p = JsString c ->
  (exists later,
     calls_since w (snd (waitForNewPage p w))
     = (now w, hasTab_call (id p))
       :: (now w, waitForNewContent_call (id p))
       :: (now w, runContentScript_call (id p) (code p)
                    {| ctx_arg := arg p;
                       ctx_metadata := {| attemptNumber := None;
                                          runBeginTime := Some (now w);
                                          waitBeginTime := None |} |})
       :: later)
  /\ (forall d r rest n,
        runReplies w = Some (d, r) :: rest ->
        completes_without_reject r = true ->
        newContentAfter w = Some n -> 0 <= n < d ->
        0 <= timeoutMs p ->
        fst (waitForNewPage p w) = Returned (reject_object JsNull)).
Proof.
  intros Hid Hlive Hcode. split.
  - rewrite (waitForNewPage_valid p w s c) by done.
    destruct (mjoin (head (runReplies w))) as [[d [o|e]]|]; cbv zeta.
    + destruct (truthy (outcome_reject o)).
      * exists []. cbn [snd]. by rewrite calls_since_set_now, calls_since_script_started.
      * eexists. by rewrite calls_since_new_page_wait, calls_since_script_started.
    + destruct (name e === CONTENT_SCRIPT_ABORTED_ERROR).
      * eexists. by rewrite calls_since_new_page_wait, calls_since_script_started.
      * exists []. cbn [snd]. by rewrite calls_since_set_now, calls_since_script_started.
    + exists []. cbn [snd]. by rewrite calls_since_script_started.
  - intros d r rest n Hrun Hr Hn Hnd Hms.
    rewrite (waitForNewPage_waits p w s c d r rest) by (try done; lia).
    rewrite Hn. apply new_page_wait_in_time. cbn [set_now now]. lia.
Qed.

(** C10. When the script execution of [waitForNewPage] resolves to
    [{reject: v}] with a falsy [v] ([0], [false], the empty string, [null],
    [undefined], [NaN]), the handler does not return at once: it starts its
    timer and ends as the wait for new content ends, with [{reject: null}]
    or with the NewPageWaitTimeout error, the latter when new content
    never shows up. *)
Theorem waitForNewPage_falsy_reject_waits p w s c d v rest :
  id p = JsString s -> s ∈ liveTabs w -> code p = JsString c ->
  runReplies w = Some (d, Fulfilled (Reject v)) :: rest -> 0 <= d ->
  0 <= timeoutMs p ->
  truthy v = false ->
  last (calls_since w (snd (waitForNewPage p w)))
  = Some (now w + d, delay_call (timeoutMs p))
  /\ (fst (waitForNewPage p w) = Returned (reject_object JsNull)
      \/ exists msg,
           fst (waitForNewPage p w) = Thrown (newPageWaitTimeoutError msg))
  /\ (forall n, newContentAfter w = Some n ->
                now w + n < now w + d + timeoutMs p ->
                fst (waitForNewPage p w) = Returned (reject_object JsNull))
  /\ ((forall n, newContentAfter w = Some n ->
                 now w + d + timeoutMs p < now w + n) ->
      exists msg,
        fst (waitForNewPage p w) = Thrown (newPageWaitTimeoutError msg)).
Proof.
  intros Hid Hlive Hcode Hrun Hd Hms Hv.
  rewrite (waitForNewPage_waits p w s c d (Fulfilled (Reject v)) rest)
    by (try done; cbn; by rewrite Hv).
  split; [|split; [|split]].
  - rewrite calls_since_new_page_wait. apply last_snoc.
  - destruct (new_page_wait_either p ((fun n => now w + n) <$> newContentAfter w)
                (set_now (now w + d) (script_started p w))) as [Hnull|Hlate];
      [by left|right; by eexists].
  - intros n Hn Hlt. rewrite Hn. by apply new_page_wait_in_time.
  - intros Hlate. eexists. apply new_page_wait_late; [done|].
    intros t Ht. destruct (newContentAfter w) as [n|]; [|done].
    injection Ht as <-. by apply Hlate.
Qed.

(** *** [wait] *)

(** One attempt, by the reply it meets. *)
Lemma attempt_aborted fuel p wm n w d e rest :
  runReplies w = Some (d, Rejected e) :: rest ->
  name e = CONTENT_SCRIPT_ABORTED_ERROR ->
  attempt (S fuel) p wm n w
  = attempt fuel p wm (n + 1) (after_attempt p wm n d w).
Proof.
  intros Hrun He. cbn [attempt].
  unfold try_catch, bind, Date_now, tabManager.runContentScript.
  rewrite Hrun. cbn [head mjoin option_join promise_of await].
  apply String.eqb_eq in He. rewrite He.
  unfold after_attempt. by rewrite Hrun.
Qed.

Lemma attempt_failed fuel p wm n w d e rest :
  runReplies w = Some (d, Rejected e) :: rest ->
  name e <> CONTENT_SCRIPT_ABORTED_ERROR ->
  attempt (S fuel) p wm n w = (Thrown e, after_attempt p wm n d w).
Proof.
  intros Hrun He. cbn [attempt].
  unfold try_catch, bind, Date_now, tabManager.runContentScript.
  rewrite Hrun. cbn [head mjoin option_join promise_of await].
  apply String.eqb_neq in He. rewrite He.
  unfold after_attempt. by rewrite Hrun.
Qed.

Lemma attempt_fulfilled fuel p wm n w d o rest :
  runReplies w = Some (d, Fulfilled o) :: rest ->
  attempt (S fuel) p wm n w
  = (Returned (outcome_object o), after_attempt p wm n d w).
Proof.
  intros Hrun. cbn [attempt].
  unfold try_catch, bind, Date_now, tabManager.runContentScript.
  unfold after_attempt. by rewrite Hrun.
Qed.

Lemma aborted_inv r :
  aborted r = true ->
  exists d e, r = Some (d, Rejected e) /\ 0 <= d
              /\ name e = CONTENT_SCRIPT_ABORTED_ERROR.
Proof.
  destruct r as [[d [o|e]]|]; cbn [aborted]; try done.
  intros [Hd He]%andb_true_iff. exists d, e.
  split; [done|]. split; [lia|by apply String.eqb_eq].
Qed.

Lemma runReplies_after_attempt p wm n d w :
  runReplies (after_attempt p wm n d w) = tail (runReplies w).
Proof. reflexivity. Qed.

(** As long as the replies are aborts the attempts go on, the attempt
    number growing by one each time. *)
Lemma attempt_after_aborts fuel p wm aborts : forall n w later,
  forallb aborted aborts = true ->
  runReplies w = aborts ++ later ->
  attempt (length aborts + fuel) p wm n w
  = attempt fuel p wm (n + length aborts) (after_attempts p wm n aborts w).
Proof.
  induction aborts as [|r aborts IH]; intros n w later Hab Hrun.
  - cbn [length after_attempts]. by rewrite Nat.add_0_r.
  - cbn [forallb] in Hab. apply andb_true_iff in Hab as [Hr Hab].
    destruct (aborted_inv r Hr) as (d & e & -> & Hd & He).
    cbn [length Nat.add after_attempts duration].
    rewrite (attempt_aborted _ p wm n w d e (aborts ++ later)) by done.
    rewrite (IH (n + 1)%nat _ later); [|done|by rewrite runReplies_after_attempt, Hrun].
    replace (n + 1 + length aborts)%nat with (n + S (length aborts))%nat by lia.
    by replace (n + 1)%nat with (S n) by lia.
Qed.

Lemma runReplies_after_attempts p wm rs : forall n w later,
  runReplies w = rs ++ later ->
  runReplies (after_attempts p wm n rs w) = later.
Proof.
  induction rs as [|r rs IH]; intros n w later Hrun; [done|].
  cbn [after_attempts]. apply IH. by rewrite runReplies_after_attempt, Hrun.
Qed.

Lemma executions_app l1 l2 : executions (l1 ++ l2) = executions l1 ++ executions l2.
Proof. apply omap_app. Qed.

Lemma attempt_numbers_app l1 l2 :
  attempt_numbers (l1 ++ l2) = attempt_numbers l1 ++ attempt_numbers l2.
Proof. unfold attempt_numbers. by rewrite executions_app, fmap_app. Qed.

Lemma wait_begin_times_app l1 l2 :
  wait_begin_times (l1 ++ l2) = wait_begin_times l1 ++ wait_begin_times l2.
Proof. unfold wait_begin_times. by rewrite executions_app, fmap_app. Qed.

Lemma log_after_attempt p t0 n d w :
  exists ctx,
    log (after_attempt p (wait_metadata t0) n d w)
    = log w ++ [(now w, runContentScript_call (id p) (code p) ctx)]
    /\ attemptNumber (ctx_metadata ctx) = Some n
    /\ waitBeginTime (ctx_metadata ctx) = Some t0.
Proof. eexists. split; [reflexivity|]. split; reflexivity. Qed.

Lemma log_after_attempts p t0 rs : forall n w,
  exists added,
    log (after_attempts p (wait_metadata t0) n rs w) = log w ++ added
    /\ attempt_numbers added = Some <$> seq n (length rs)
    /\ wait_begin_times added = replicate (length rs) (Some t0).
Proof.
  induction rs as [|r rs IH]; intros n w.
  - exists []. by rewrite app_nil_r.
  - cbn [after_attempts].
    destruct (IH (S n) (after_attempt p (wait_metadata t0) n (duration r) w))
      as (added & Hlog & Hnum & Hbegin).
    destruct (log_after_attempt p t0 n (duration r) w) as (ctx & Hlog1 & Hn & Ht0).
    eexists (_ :: added). rewrite Hlog, Hlog1, <- app_assoc. split; [reflexivity|].
    split.
    + change (attempt_numbers (?x :: added)) with (attempt_numbers ([x] ++ added)).
      rewrite attempt_numbers_app, Hnum. cbn. by rewrite Hn.
    + change (wait_begin_times (?x :: added)) with (wait_begin_times ([x] ++ added)).
      rewrite wait_begin_times_app, Hbegin. cbn. by rewrite Ht0.
Qed.

Lemma wait_valid fuel p w s c :
  id p = JsString s -> s ∈ liveTabs w -> code p = JsString c ->
  wait fuel p w
  = attempt fuel p (wait_metadata (now w)) 0 (record (hasTab_call (id p)) w).
Proof.
  intros Hid Hlive Hcode. unfold wait, bind at 1.
  rewrite (id_guard_live _ s) by done.
  assert ((typeof (code p) !== "string") = false) as -> by (by rewrite Hcode).
  reflexivity.
Qed.

Lemma now_after_attempts p wm aborts : forall n w,
  forallb aborted aborts = true ->
  now (after_attempts p wm n aborts w) = now w + total_duration aborts.
Proof.
  induction aborts as [|r aborts IH]; intros n w Hab.
  - cbn. lia.
  - cbn [forallb] in Hab. apply andb_true_iff in Hab as [Hr Hab].
    destruct (aborted_inv r Hr) as (d & e & -> & Hd & He).
    cbn [after_attempts total_duration foldr duration].
    rewrite IH by done. unfold after_attempt; cbn [now set_now].
    fold (total_duration aborts). lia.
Qed.

(** [wait] up to the first reply that is not an abort. *)
Lemma wait_after_aborts fuel p w s c aborts later :
  id p = JsString s -> s ∈ liveTabs w -> code p = JsString c ->
  forallb aborted aborts = true ->
  runReplies w = aborts ++ later ->
  exists wk added,
    wait (length aborts + fuel) p w
    = attempt fuel p (wait_metadata (now w)) (length aborts) wk
    /\ runReplies wk = later
    /\ log wk = log w ++ (now w, hasTab_call (id p)) :: added
    /\ attempt_numbers added = Some <$> seq 0 (length aborts)
    /\ wait_begin_times added = replicate (length aborts) (Some (now w))
    /\ now wk = now w + total_duration aborts.
Proof.
  intros Hid Hlive Hcode Hab Hrun.
  rewrite (wait_valid _ p w s c) by done.
  rewrite (attempt_after_aborts fuel p _ aborts 0 _ later) by done.
  destruct (log_after_attempts p (now w) aborts 0 (record (hasTab_call (id p)) w))
    as (added & Hlog & Hnum & Hbegin).
  eexists _, added. split; [reflexivity|].
  split; [by apply runReplies_after_attempts|].
  split; [|split; [done|split; [done|]]].
  - rewrite Hlog. unfold record; cbn [log]. by rewrite <- app_assoc.
  - by rewrite now_after_attempts.
Qed.

Lemma calls_since_app w w' added :
  log w' = log w ++ added -> calls_since w w' = added.
Proof. intros Hlog. unfold calls_since. rewrite Hlog. apply drop_app_length. Qed.

(** C1. [wait] with a live tab id and a string [code], when the first
    [k] script executions fail with the abort error ([aborts], of length
    [k]): the handler has no bound of its own on the retries (with fuel
    for no more than [k] attempts the model runs out of fuel after that
    many attempts, numbered from 0), and when the execution after the [k]
    aborts resolves to an outcome, [wait] returns that outcome, having
    made [k + 1] attempts whose [attemptNumber] are 0, 1, ..., [k], in
    this order, all with the [waitBeginTime] read before the first
    attempt; the last attempt's [attemptNumber] is [k]. *)
Theorem wait_retries_while_aborted fuel p w s c aborts later :
  id p = JsString s -> s ∈ liveTabs w -> code p = JsString c ->
  forallb aborted aborts = true ->
  runReplies w = aborts ++ later ->
  ((fuel <= length aborts)%nat ->
     fst (wait fuel p w) = OutOfFuel
     /\ attempt_numbers (calls_since w (snd (wait fuel p w))) = Some <$> seq 0 fuel
     /\ wait_begin_times (calls_since w (snd (wait fuel p w)))
        = replicate fuel (Some (now w)))
  /\ (forall d outcome rest,
        later = Some (d, Fulfilled outcome) :: rest ->
        (length aborts < fuel)%nat ->
        fst (wait fuel p w) = Returned (outcome_object outcome)
        /\ attempt_numbers (calls_since w (snd (wait fuel p w)))
           = Some <$> seq 0 (S (length aborts))
        /\ wait_begin_times (calls_since w (snd (wait fuel p w)))
           = replicate (S (length aborts)) (Some (now w))
        /\ last (attempt_numbers (calls_since w (snd (wait fuel p w))))
           = Some (Some (length aborts))
        /\ runReplies (snd (wait fuel p w)) = rest
        /\ (0 <= d -> now (snd (wait fuel p w)) = now w + total_duration aborts + d)).
Proof.
  intros Hid Hlive Hcode Hab Hrun. split.
  - intros Hfuel.
    assert (forallb aborted (take fuel aborts) = true) as Hab'.
    { rewrite <- (take_drop fuel aborts), forallb_app in Hab.
      by apply andb_true_iff in Hab as [? _]. }
    assert (runReplies w = take fuel aborts ++ (drop fuel aborts ++ later)) as Hrun'.
    { by rewrite app_assoc, take_drop. }
    destruct (wait_after_aborts 0 p w s c _ _ Hid Hlive Hcode Hab' Hrun')
      as (wk & added & Hwait & _ & Hlog & Hnum & Hbegin & _).
    rewrite length_take, Nat.min_l, Nat.add_0_r in * by done.
    rewrite Hwait. cbn [attempt fst snd].
    rewrite (calls_since_app w wk _ Hlog).
    split; [done|]. split; [apply Hnum|apply Hbegin].
  - intros d outcome rest -> Hfuel.
    destruct (wait_after_aborts (S (fuel - S (length aborts))) p w s c _ _
                Hid Hlive Hcode Hab Hrun)
      as (wk & added & Hwait & Hrunk & Hlog & Hnum & Hbegin & Hnow).
    replace (length aborts + S (fuel - S (length aborts)))%nat with fuel in Hwait by lia.
    rewrite Hwait, (attempt_fulfilled _ p _ _ wk d outcome rest) by done.
    cbn [fst snd].
    destruct (log_after_attempt p (now w) (length aborts) d wk)
      as (ctx & Hlog' & Hn & Ht0).
    rewrite Hlog, <- app_assoc in Hlog'. rewrite (calls_since_app _ _ _ Hlog').
    change ((?x :: added) ++ ?l) with ([x] ++ added ++ l).
    rewrite !attempt_numbers_app, !wait_begin_times_app, Hnum, Hbegin.
    split; [done|]. split; [|split; [|split; [|split]]].
    + rewrite seq_S, fmap_app. cbn. by rewrite Hn.
    + rewrite replicate_S_end. cbn. by rewrite Ht0.
    + cbn. rewrite Hn. apply last_snoc.
    + by rewrite runReplies_after_attempt, Hrunk.
    + intros Hd. unfold after_attempt; cbn [now set_now]. lia.
Qed.

(** C6. [wait] with a live tab id and a string [code], when a script
    execution fails with an error that is not the abort error (after any
    number of aborted ones): the handler throws that very error; the
    failed attempt is the last one made, no further reply of the tab
    manager is consumed, and the clock stands at the instant of the
    failure. *)
Theorem wait_propagates_other_errors fuel p w s c aborts d e rest :
  id p = JsString s -> s ∈ liveTabs w -> code p = JsString c ->
  forallb aborted aborts = true ->
  runReplies w = aborts ++ Some (d, Rejected e) :: rest ->
  name e <> CONTENT_SCRIPT_ABORTED_ERROR ->
  (length aborts < fuel)%nat ->
  fst (wait fuel p w) = Thrown e
  /\ attempt_numbers (calls_since w (snd (wait fuel p w)))
     = Some <$> seq 0 (S (length aborts))
  /\ runReplies (snd (wait fuel p w)) = rest
  /\ (0 <= d -> now (snd (wait fuel p w)) = now w + total_duration aborts + d).
Proof.
  intros Hid Hlive Hcode Hab Hrun He Hfuel.
  destruct (wait_after_aborts (S (fuel - S (length aborts))) p w s c _ _
              Hid Hlive Hcode Hab Hrun)
    as (wk & added & Hwait & Hrunk & Hlog & Hnum & Hbegin & Hnow).
  replace (length aborts + S (fuel - S (length aborts)))%nat with fuel in Hwait by lia.
  rewrite Hwait, (attempt_failed _ p _ _ wk d e rest) by done.
  cbn [fst snd].
  destruct (log_after_attempt p (now w) (length aborts) d wk)
    as (ctx & Hlog' & Hn & Ht0).
  rewrite Hlog, <- app_assoc in Hlog'. rewrite (calls_since_app _ _ _ Hlog').
  change ((?x :: added) ++ ?l) with ([x] ++ added ++ l).
  rewrite !attempt_numbers_app, Hnum.
  split; [done|]. split; [|split].
  - rewrite seq_S, fmap_app. cbn. by rewrite Hn.
  - by rewrite runReplies_after_attempt, Hrunk.
  - intros Hd. unfold after_attempt; cbn [now set_now]. lia.
Qed.

(** *** The registry *)

Lemma tabsMethods_lookup fuel command handler :
  tabsMethods fuel !! command = Some handler ->
  (command = "tabs.create" /\ handler = createTab)
  \/ (command = "tabs.navigate" /\ handler = navigateTab)
  \/ (command = "tabs.run" /\ handler = run)
  \/ (command = "tabs.wait" /\ handler = wait fuel)
  \/ (command = "tabs.waitForNewPage" /\ handler = waitForNewPage).
Proof.
  unfold tabsMethods. intros Hlookup%elem_of_list_to_map_2.
  repeat (apply elem_of_cons in Hlookup as [[= -> ->]|Hlookup]; [tauto|]).
  by apply elem_of_nil in Hlookup.
Qed.

Lemma calls_since_refl w : calls_since w w = [].
Proof. unfold calls_since. apply drop_all. Qed.

(** Every handler that takes an [id] refuses an invalid one: without a
    call when it is not a string, after [hasTab] when it is. The message
    carries the name of the command, except in [waitForNewPage]. *)
Lemma invalid_id_refused fuel command handler p w :
  tabsMethods fuel !! command = Some handler ->
  command <> "tabs.create" ->
  (forall s, id p = JsString s -> s ∉ liveTabs w) ->
  handler p w
  = (Thrown (illegalArgumentError
               ((if decide (command = "tabs.waitForNewPage") then "tabs.run"
                 else command) +:+ "(): invalid argument `id`")),
     match id p with
     | JsString _ => record (hasTab_call (id p)) w
     | _ => w
     end).
Proof.
  intros Hlookup Hcreate Hinvalid.
  destruct (tabsMethods_lookup _ _ _ Hlookup)
    as [[-> ->]|[[-> ->]|[[-> ->]|[[-> ->]|[-> ->]]]]]; [done|..];
    (destruct (id_cases (id p) w) as [Hid|[(s & Hid & Hs)|(s & Hid & Hs)]];
     [|rewrite Hid in *|by destruct (Hinvalid s Hid)]).
  - rewrite navigateTab_id_not_string by done. by destruct (id p); [..|destruct (Hid s)|].
  - by rewrite (navigateTab_id_unknown p w s), Hid by done.
  - rewrite run_id_not_string by done. by destruct (id p); [..|destruct (Hid s)|].
  - by rewrite (run_id_unknown p w s), Hid by done.
  - rewrite wait_id_not_string by done. by destruct (id p); [..|destruct (Hid s)|].
  - by rewrite (wait_id_unknown fuel p w s), Hid by done.
  - rewrite waitForNewPage_id_not_string by done.
    by destruct (id p); [..|destruct (Hid s)|].
  - by rewrite (waitForNewPage_id_unknown p w s), Hid by done.
Qed.

(** C7 (amended). For every command of the registry that takes an [id]
    (all but [tabs.create]) and every invalid [id]: the call fails with
    IllegalArgument; when [id] is not a string no method of the tab manager
    is invoked at all, and when it is a string that is not a live tab the
    only method invoked is the liveness query [hasTab(id)] itself. *)
Theorem invalid_id_fails_before_any_operation fuel command handler p w :
  tabsMethods fuel !! command = Some handler ->
  command <> "tabs.create" ->
  (forall s, id p = JsString s -> s ∉ liveTabs w) ->
  (exists msg, fst (handler p w) = Thrown (illegalArgumentError msg))
  /\ tabManager_calls (calls_since w (snd (handler p w)))
     = match id p with
       | JsString _ => [hasTab_call (id p)]
       | _ => []
       end.
Proof.
  intros Hlookup Hcreate Hinvalid.
  rewrite (invalid_id_refused fuel command handler p w) by done.
  split; [by eexists|]. cbn [snd].
  destruct (id p); rewrite ?calls_since_refl, ?calls_since_record; reflexivity.
Qed.

(** The handlers of [tabs.navigate], [tabs.run] and [tabs.wait] name
    their own command, and the argument, when they refuse an [id]. *)
Lemma invalid_id_message_names_command fuel command handler p w :
  tabsMethods fuel !! command = Some handler ->
  command <> "tabs.create" -> command <> "tabs.waitForNewPage" ->
  (forall s, id p = JsString s -> s ∉ liveTabs w) ->
  exists msg,
    fst (handler p w) = Thrown (illegalArgumentError msg)
    /\ includes command msg = true /\ includes "`id`" msg = true.
Proof.
  intros Hlookup Hcreate Hnew Hinvalid.
  rewrite (invalid_id_refused fuel command handler p w) by done.
  destruct (decide (command = "tabs.waitForNewPage")); [done|].
  eexists. split; [reflexivity|].
  destruct (tabsMethods_lookup _ _ _ Hlookup)
    as [[-> ->]|[[-> ->]|[[-> ->]|[[-> ->]|[-> ->]]]]]; done.
Qed.

(** C8 (what the code does). The handler registered as
    [tabs.waitForNewPage] refuses an invalid [id] with a message that names
    [tabs.run] and nowhere [tabs.waitForNewPage]. *)
Theorem waitForNewPage_invalid_id_names_tabs_run fuel handler p w :
  tabsMethods fuel !! "tabs.waitForNewPage" = Some handler ->
  (forall s, id p = JsString s -> s ∉ liveTabs w) ->
  fst (handler p w)
  = Thrown (illegalArgumentError "tabs.run(): invalid argument `id`")
  /\ includes "tabs.waitForNewPage" "tabs.run(): invalid argument `id`" = false
  /\ includes "tabs.run" "tabs.run(): invalid argument `id`" = true.
Proof.
  intros Hlookup Hinvalid.
  rewrite (invalid_id_refused fuel _ handler p w) by done.
  done.
Qed.

(** *** The remaining handlers *)

Lemma createTab_calls p w :
  calls_since w (snd (createTab p w)) = [(now w, createTab_call)].
Proof.
  unfold createTab, bind, tabManager.createTab, await, promise_of.
  destruct (createReply w) as [[d [tab|e]]|]; apply calls_since_record.
Qed.

(** X1. [createTab] looks at none of its parameters and checks nothing: it
    calls the tab manager's [createTab], that call only, and ends as it
    ends, returning the [id] of the tab it is fulfilled with. *)
Theorem createTab_returns_the_new_id (p : Params) (w : World) :
  fst (createTab p w) = ends_as (createReply w) (fun tab => JsString (tab_id tab))
  /\ calls_since w (snd (createTab p w)) = [(now w, createTab_call)]
  /\ forall p', createTab p' w = createTab p w.
Proof.
  split; [|split; [apply createTab_calls|reflexivity]].
  unfold createTab, bind, tabManager.createTab, await, promise_of, ends_as.
  by destruct (createReply w) as [[d [tab|e]]|].
Qed.

Lemma run_valid p w s c :
  id p = JsString s -> s ∈ liveTabs w -> code p = JsString c ->
  run p w
  = let w1 := record (runContentScript_call (id p) (code p)
                        {| ctx_arg := arg p;
                           ctx_metadata := {| attemptNumber := None;
                                              runBeginTime := Some (now w);
                                              waitBeginTime := None |} |})
                (set_runReplies (tail (runReplies w)) (record (hasTab_call (id p)) w)) in
    match first_reply w with
    | Some (d, Fulfilled o) =>
        (Returned (outcome_object o), set_now (Z.max (now w) (now w + d)) w1)
    | Some (d, Rejected e) => (Thrown e, set_now (Z.max (now w) (now w + d)) w1)
    | None => (Pending, w1)
    end.
Proof.
  intros Hid Hlive Hcode. unfold run, bind at 1.
  rewrite (id_guard_live _ s) by done.
  assert ((typeof (code p) !== "string") = false) as -> by (by rewrite Hcode).
  unfold bind, Date_now, tabManager.runContentScript, first_reply.
  change (runReplies (record _ w)) with (runReplies w).
  change (now (record _ w)) with (now w).
  by destruct (mjoin (head (runReplies w))) as [[d [o|e]]|].
Qed.

Lemma run_code_not_string p w s :
  id p = JsString s -> s ∈ liveTabs w ->
  (forall c, code p <> JsString c) ->
  run p w
  = (Thrown (illegalArgumentError "tabs.run(): invalid argument `code`"),
     record (hasTab_call (id p)) w).
Proof.
  intros Hid Hlive Hcode. unfold run, bind.
  rewrite (id_guard_live _ s) by done.
  assert ((typeof (code p) !== "string") = true) as ->; [|done].
  destruct (code p); try reflexivity. by destruct (Hcode s0).
Qed.

Lemma wait_code_not_string fuel p w s :
  id p = JsString s -> s ∈ liveTabs w ->
  (forall c, code p <> JsString c) ->
  wait fuel p w
  = (Thrown (illegalArgumentError "tabs.wait(): invalid argument `code`"),
     record (hasTab_call (id p)) w).
Proof.
  intros Hid Hlive Hcode. unfold wait, bind.
  rewrite (id_guard_live _ s) by done.
  assert ((typeof (code p) !== "string") = true) as ->; [|done].
  destruct (code p); try reflexivity. by destruct (Hcode s0).
Qed.

Lemma run_valid_calls p w s c :
  id p = JsString s -> s ∈ liveTabs w -> code p = JsString c ->
  calls_since w (snd (run p w))
  = [(now w, hasTab_call (id p));
     (now w, runContentScript_call (id p) (code p)
               {| ctx_arg := arg p;
                  ctx_metadata := {| attemptNumber := None;
                                     runBeginTime := Some (now w);
                                     waitBeginTime := None |} |})].
Proof.
  intros Hid Hlive Hcode. rewrite (run_valid p w s c) by done. cbv zeta.
  destruct (first_reply w) as [[d [o|e]]|]; cbn [fst snd];
    unfold calls_since, set_now, record, set_runReplies; cbn [log now];
    rewrite <- app_assoc; apply drop_app_length.
Qed.

(** X2. [run] with a live tab id and a string [code] executes the script
    once and ends as that execution ends: it returns the outcome, or throws
    the error of the execution whatever it is, the abort error included, or
    stays pending. One reply of the tab manager is used, and the metadata of
    the execution has [runBeginTime], the instant of the call, and neither
    [attemptNumber] nor [waitBeginTime]. *)
Theorem run_executes_once (p : Params) (w : World) (s c : string) :
  id p = JsString s -> s ∈ liveTabs w -> code p = JsString c ->
  fst (run p w) = ends_as (first_reply w) outcome_object
  /\ calls_since w (snd (run p w))
     = [(now w, hasTab_call (id p));
        (now w, runContentScript_call (id p) (code p)
                  {| ctx_arg := arg p;
                     ctx_metadata := {| attemptNumber := None;
                                        runBeginTime := Some (now w);
                                        waitBeginTime := None |} |})]
  /\ runReplies (snd (run p w)) = tail (runReplies w).
Proof.
  intros Hid Hlive Hcode. split; [|split; [by apply (run_valid_calls p w s c)|]].
  - rewrite (run_valid p w s c) by done. cbv zeta. unfold ends_as.
    by destruct (first_reply w) as [[d [o|e]]|].
  - rewrite (run_valid p w s c) by done. cbv zeta.
    by destruct (first_reply w) as [[d [o|e]]|].
Qed.

(** X3. The handlers that take [code] ([tabs.run], [tabs.wait],
    [tabs.waitForNewPage]) refuse a [code] that is not a string: with a live
    tab id the call fails with IllegalArgument, the message naming the
    argument [code], after the liveness check and before any script is
    executed or any observation begun. *)
Theorem code_must_be_a_string fuel command handler (p : Params) (w : World) (s : string) :
  tabsMethods fuel !! command = Some handler ->
  command = "tabs.run" \/ command = "tabs.wait" \/ command = "tabs.waitForNewPage" ->
  id p = JsString s -> s ∈ liveTabs w ->
  (forall c, code p <> JsString c) ->
  (exists msg,
     fst (handler p w) = Thrown (illegalArgumentError msg)
     /\ includes "`code`" msg = true)
  /\ calls_since w (snd (handler p w)) = [(now w, hasTab_call (id p))].
Proof.
  intros Hlookup Hcommand Hid Hlive Hcode.
  destruct (tabsMethods_lookup _ _ _ Hlookup)
    as [[-> ->]|[[-> ->]|[[-> ->]|[[-> ->]|[-> ->]]]]];
    try (by destruct Hcommand as [?|[?|?]]).
  - rewrite (run_code_not_string p w s) by done.
    split; [by eexists|apply calls_since_record].
  - rewrite (wait_code_not_string fuel p w s) by done.
    split; [by eexists|apply calls_since_record].
  - rewrite (waitForNewPage_code_not_string p w s) by done.
    split; [by eexists|apply calls_since_record].
Qed.

(** *** [wait] in any world *)

(** One attempt, whatever the tab manager answers. *)
Lemma attempt_step fuel p wm n w :
  attempt (S fuel) p wm n w
  = match first_reply w with
    | Some (d, Fulfilled o) =>
        (Returned (outcome_object o), after_attempt p wm n d w)
    | Some (d, Rejected e) =>
        if name e === CONTENT_SCRIPT_ABORTED_ERROR
        then attempt fuel p wm (n + 1) (after_attempt p wm n d w)
        else (Thrown e, after_attempt p wm n d w)
    | None => (Pending, attempt_started p wm n w)
    end.
Proof.
  cbn [attempt].
  unfold try_catch, bind, Date_now, tabManager.runContentScript, first_reply.
  destruct (mjoin (head (runReplies w))) as [[d [o|e]]|]; cbn [promise_of await].
  - reflexivity.
  - by destruct (name e === CONTENT_SCRIPT_ABORTED_ERROR).
  - reflexivity.
Qed.

(** A run of [attempt] that was not cut off is not changed by more fuel. *)
Lemma attempt_more_fuel fuel extra p wm : forall n w,
  fst (attempt fuel p wm n w) <> OutOfFuel ->
  attempt (fuel + extra) p wm n w = attempt fuel p wm n w.
Proof.
  induction fuel as [|fuel IH]; intros n w Hends; [done|].
  change (S fuel + extra)%nat with (S (fuel + extra)).
  rewrite attempt_step in Hends. rewrite !attempt_step.
  destruct (first_reply w) as [[d [o|e]]|]; try reflexivity.
  destruct (name e === CONTENT_SCRIPT_ABORTED_ERROR); [|reflexivity].
  by apply IH.
Qed.

(** Each attempt uses up a reply, so [attempt] is not cut off when it may
    make more attempts than there are replies. *)
Lemma attempt_enough_fuel fuel p wm : forall n w,
  (length (runReplies w) < fuel)%nat ->
  fst (attempt fuel p wm n w) <> OutOfFuel.
Proof.
  induction fuel as [|fuel IH]; intros n w Hfuel; [lia|].
  rewrite attempt_step. unfold first_reply.
  destruct (runReplies w) as [|r rest] eqn:Hrun; [done|].
  destruct r as [[d [o|e]]|]; cbn [head mjoin option_join]; try done.
  destruct (name e === CONTENT_SCRIPT_ABORTED_ERROR); [|done].
  apply IH. rewrite runReplies_after_attempt, Hrun. cbn in *. lia.
Qed.

(** What [attempt] adds to the log: the calls of its attempts, none of them
    started before the instant [attempt] is entered at. *)
Lemma log_attempt fuel p t0 : forall n w,
  exists instants,
    log (snd (attempt fuel p (wait_metadata t0) n w))
    = log w ++ attempt_calls p t0 n instants
    /\ Forall (fun t => now w <= t) instants
    /\ (length instants <= fuel)%nat.
Proof.
  induction fuel as [|fuel IH]; intros n w.
  - exists []. cbn. by rewrite app_nil_r.
  - rewrite attempt_step.
    assert (log (attempt_started p (wait_metadata t0) n w)
            = log w ++ attempt_calls p t0 n [now w]) as Hone by reflexivity.
    assert (forall d, log (after_attempt p (wait_metadata t0) n d w)
                      = log w ++ attempt_calls p t0 n [now w]) as Hafter by reflexivity.
    destruct (first_reply w) as [[d [o|e]]|]; cbn [snd].
    + exists [now w]. rewrite Hafter. split; [done|]. split; [|cbn; lia].
      by constructor.
    + destruct (name e === CONTENT_SCRIPT_ABORTED_ERROR); cbn [snd].
      * destruct (IH (n + 1)%nat (after_attempt p (wait_metadata t0) n d w))
          as (instants & Hlog & Hle & Hlen).
        exists (now w :: instants). rewrite Hlog, Hafter, <- app_assoc.
        replace (n + 1)%nat with (S n) by lia.
        split; [done|]. split; [|cbn; lia].
        constructor; [lia|]. eapply Forall_impl; [exact Hle|].
        intros t Ht. unfold after_attempt in Ht; cbn [now set_now] in Ht. lia.
      * exists [now w]. rewrite Hafter. split; [done|]. split; [|cbn; lia].
        by constructor.
    + exists [now w]. rewrite Hone. split; [done|]. split; [|cbn; lia].
      by constructor.
Qed.

Lemma attempt_calls_lookup p t0 instants : forall n i tc,
  attempt_calls p t0 n instants !! i = Some tc ->
  instants !! i = Some (fst tc)
  /\ snd tc = runContentScript_call (id p) (code p)
                {| ctx_arg := arg p;
                   ctx_metadata := {| attemptNumber := Some (n + i)%nat;
                                      runBeginTime := Some (fst tc);
                                      waitBeginTime := Some t0 |} |}.
Proof.
  induction instants as [|t later IH]; intros n i tc Hi; [done|].
  destruct i as [|i]; cbn in Hi.
  - injection Hi as <-. cbn. by rewrite Nat.add_0_r.
  - destruct (IH (S n) i tc Hi) as [Ht Hc]. split; [done|].
    rewrite Hc. by replace (S n + i)%nat with (n + S i)%nat by lia.
Qed.

Lemma timed_executions_attempt_calls p t0 instants : forall n i t ctx,
  timed_executions (attempt_calls p t0 n instants) !! i = Some (t, ctx) ->
  instants !! i = Some t
  /\ ctx = {| ctx_arg := arg p;
              ctx_metadata := {| attemptNumber := Some (n + i)%nat;
                                 runBeginTime := Some t;
                                 waitBeginTime := Some t0 |} |}.
Proof.
  induction instants as [|t' later IH]; intros n i t ctx Hi; [done|].
  destruct i as [|i].
  - injection Hi as <- <-. by rewrite Nat.add_0_r.
  - destruct (IH (S n) i t ctx Hi) as [Ht ->]. split; [done|].
    by replace (S n + i)%nat with (n + S i)%nat by lia.
Qed.

(** The calls of [wait], in each of its cases. *)
Lemma wait_calls fuel p w :
  (calls_since w (snd (wait fuel p w)) = [] /\ forall s, id p <> JsString s)
  \/ (calls_since w (snd (wait fuel p w)) = [(now w, hasTab_call (id p))]
      /\ exists s, id p = JsString s)
  \/ (exists s c instants,
        id p = JsString s /\ s ∈ liveTabs w /\ code p = JsString c
        /\ calls_since w (snd (wait fuel p w))
           = (now w, hasTab_call (id p)) :: attempt_calls p (now w) 0 instants
        /\ Forall (fun t => now w <= t) instants).
Proof.
  destruct (id_cases (id p) w) as [Hid|[(s & Hid & Hs)|(s & Hid & Hs)]].
  - left. rewrite wait_id_not_string by done. split; [apply calls_since_refl|done].
  - right; left. rewrite (wait_id_unknown fuel p w s) by done.
    split; [apply calls_since_record|eauto].
  - destruct (string_cases (code p)) as [Hcode|[c Hcode]].
    + right; left. rewrite (wait_code_not_string fuel p w s) by done.
      split; [apply calls_since_record|eauto].
    + right; right. rewrite (wait_valid fuel p w s c) by done.
      destruct (log_attempt fuel p (now w) 0 (record (hasTab_call (id p)) w))
        as (instants & Hlog & Hle & _).
      exists s, c, instants. repeat (split; [done|]). split; [|done].
      apply calls_since_app. rewrite Hlog. unfold record; cbn [log].
      by rewrite <- app_assoc.
Qed.

Lemma timers_attempt_calls p t0 instants : forall n,
  timers (attempt_calls p t0 n instants) = [].
Proof. induction instants as [|t later IH]; intros n; [done|apply IH]. Qed.

(** [wait] starts no timer. *)
Lemma wait_starts_no_timer fuel p w :
  timers (calls_since w (snd (wait fuel p w))) = [].
Proof.
  destruct (wait_calls fuel p w)
    as [[-> _]|[[-> _]|(s & c & instants & _ & _ & _ & -> & _)]]; [done|done|].
  change (timers (?x :: ?l)) with (timers l). apply timers_attempt_calls.
Qed.

(** X4. In every call of [wait], whatever the tab manager answers and
    however the call ends, the execution number [i] (from 0) is given the
    caller's [arg] and the metadata [{attemptNumber: i, runBeginTime: t,
    waitBeginTime: t0}], where [t] is the instant that execution is started
    at and [t0] the instant [wait] was entered at, never later than [t]. *)
Theorem wait_metadata_of_every_attempt fuel (p : Params) (w : World) i t ctx :
  timed_executions (calls_since w (snd (wait fuel p w))) !! i = Some (t, ctx) ->
  ctx = {| ctx_arg := arg p;
           ctx_metadata := {| attemptNumber := Some i;
                              runBeginTime := Some t;
                              waitBeginTime := Some (now w) |} |}
  /\ now w <= t.
Proof.
  destruct (wait_calls fuel p w)
    as [[-> _]|[[-> _]|(s & c & instants & _ & _ & _ & -> & Hle)]]; [done|done|].
  change (timed_executions (?x :: ?l)) with (timed_executions l).
  intros Hi. destruct (timed_executions_attempt_calls _ _ _ _ _ _ _ Hi) as [Ht ->].
  split; [done|]. eapply Forall_lookup_1 in Hle; [|exact Ht]. done.
Qed.

(** X5. [wait] meeting a first execution that is not aborted does what
    [run] does: the same completion at the same instant, with the same
    replies of the tab manager left. *)
Theorem wait_without_abort_is_run fuel (p : Params) (w : World) (s c : string) :
  id p = JsString s -> s ∈ liveTabs w -> code p = JsString c ->
  (forall d e, first_reply w = Some (d, Rejected e) ->
               name e <> CONTENT_SCRIPT_ABORTED_ERROR) ->
  fst (wait (S fuel) p w) = fst (run p w)
  /\ now (snd (wait (S fuel) p w)) = now (snd (run p w))
  /\ runReplies (snd (wait (S fuel) p w)) = runReplies (snd (run p w)).
Proof.
  intros Hid Hlive Hcode Hfirst.
  rewrite (wait_valid _ p w s c), (run_valid p w s c), attempt_step by done.
  change (first_reply (record _ w)) with (first_reply w). cbv zeta.
  destruct (first_reply w) as [[d [o|e]]|]; [done| |done].
  specialize (Hfirst d e eq_refl). apply String.eqb_neq in Hfirst.
  by rewrite Hfirst.
Qed.

(** X6. [wait] has no timeout of its own: when the execution that follows
    [k] aborted ones never settles, [wait] stays pending, after [k + 1]
    attempts. *)
Theorem wait_pending_with_the_script fuel (p : Params) (w : World) (s c : string)
        aborts later :
  id p = JsString s -> s ∈ liveTabs w -> code p = JsString c ->
  forallb aborted aborts = true ->
  runReplies w = aborts ++ later ->
  mjoin (M:=option) (head later) = None ->
  (length aborts < fuel)%nat ->
  fst (wait fuel p w) = Pending
  /\ attempt_numbers (calls_since w (snd (wait fuel p w)))
     = Some <$> seq 0 (S (length aborts))
  /\ timers (calls_since w (snd (wait fuel p w))) = [].
Proof.
  intros Hid Hlive Hcode Hab Hrun Hlater Hfuel.
  pose proof (wait_starts_no_timer fuel p w) as Htimers. revert Htimers.
  destruct (wait_after_aborts (S (fuel - S (length aborts))) p w s c _ _
              Hid Hlive Hcode Hab Hrun)
    as (wk & added & Hwait & Hrunk & Hlog & Hnum & Hbegin & Hnow).
  replace (length aborts + S (fuel - S (length aborts)))%nat with fuel in Hwait by lia.
  rewrite Hwait, attempt_step. unfold first_reply. rewrite Hrunk, Hlater. cbn [fst snd].
  assert (log (attempt_started p (wait_metadata (now w)) (length aborts) wk)
          = log w ++ ([(now w, hasTab_call (id p))] ++ added)
              ++ attempt_calls p (now w) (length aborts) [now wk]) as Hlog'.
  { unfold attempt_started, record, set_runReplies; cbn [log now].
    by rewrite Hlog, <- !app_assoc. }
  rewrite (calls_since_app _ _ _ Hlog'). intros Htimers.
  split; [done|]. split.
  - rewrite !attempt_numbers_app, Hnum, seq_S, fmap_app. reflexivity.
  - done.
Qed.

(** *** The calls of each handler *)

Lemma log_await {A} (pr : Promise A) w : log (snd (await pr w)) = log w.
Proof. by destruct pr as [[t [a|e]]|]. Qed.

Lemma calls_since_two w c1 c2 :
  calls_since w (record c2 (record c1 w)) = [(now w, c1); (now w, c2)].
Proof.
  unfold calls_since, record; cbn [log now]. rewrite <- app_assoc.
  apply drop_app_length.
Qed.

Lemma navigateTab_calls p w :
  (calls_since w (snd (navigateTab p w)) = [] /\ ~ is_string (id p))
  \/ (calls_since w (snd (navigateTab p w)) = [(now w, hasTab_call (id p))]
      /\ is_string (id p))
  \/ (calls_since w (snd (navigateTab p w))
      = [(now w, hasTab_call (id p)); (now w, navigateTab_call (id p) (url p))]
      /\ live w (id p)
      /\ exists a, url p = JsString a /\ absolute_http a = true).
Proof.
  destruct (id_cases (id p) w) as [Hid|[(s & Hid & Hs)|(s & Hid & Hs)]].
  - left. rewrite navigateTab_id_not_string by done.
    split; [apply calls_since_refl|]. intros [s Hs]. by destruct (Hid s).
  - right; left. rewrite (navigateTab_id_unknown p w s) by done.
    split; [apply calls_since_record|by exists s].
  - destruct (url p) as [| | | | |a|] eqn:Hurl;
      try (right; left; rewrite (navigateTab_bad_url p w s) by (try done; congruence);
           split; [apply calls_since_record|by exists s]).
    destruct (absolute_http a) eqn:Ha.
    + right; right. rewrite (navigateTab_good_url p w s a) by done.
      split; [|split; [by exists s|by exists a]].
      unfold calls_since. rewrite log_await. rewrite <- Hurl. apply calls_since_two.
    + right; left.
      rewrite (navigateTab_bad_url p w s) by (try done; congruence).
      split; [apply calls_since_record|by exists s].
Qed.

Lemma run_calls p w :
  (calls_since w (snd (run p w)) = [] /\ ~ is_string (id p))
  \/ (calls_since w (snd (run p w)) = [(now w, hasTab_call (id p))]
      /\ is_string (id p))
  \/ (exists ctx,
        calls_since w (snd (run p w))
        = [(now w, hasTab_call (id p));
           (now w, runContentScript_call (id p) (code p) ctx)]
        /\ ctx_arg ctx = arg p
        /\ live w (id p) /\ is_string (code p)).
Proof.
  destruct (id_cases (id p) w) as [Hid|[(s & Hid & Hs)|(s & Hid & Hs)]].
  - left. rewrite run_id_not_string by done.
    split; [apply calls_since_refl|]. intros [s Hs]. by destruct (Hid s).
  - right; left. rewrite (run_id_unknown p w s) by done.
    split; [apply calls_since_record|by exists s].
  - destruct (string_cases (code p)) as [Hcode|[c Hcode]].
    + right; left. rewrite (run_code_not_string p w s) by done.
      split; [apply calls_since_record|by exists s].
    + right; right. eexists.
      rewrite (run_valid_calls p w s c) by done.
      split; [reflexivity|]. split; [reflexivity|]. split; [by exists s|by exists c].
Qed.

Lemma waitForNewPage_calls p w :
  (calls_since w (snd (waitForNewPage p w)) = [] /\ ~ is_string (id p))
  \/ (calls_since w (snd (waitForNewPage p w)) = [(now w, hasTab_call (id p))]
      /\ is_string (id p))
  \/ (exists ctx timer,
        calls_since w (snd (waitForNewPage p w))
        = [(now w, hasTab_call (id p));
           (now w, waitForNewContent_call (id p));
           (now w, runContentScript_call (id p) (code p) ctx)] ++ timer
        /\ ctx_arg ctx = arg p
        /\ (timer = [] \/ exists t, timer = [(t, delay_call (timeoutMs p))])
        /\ live w (id p) /\ is_string (code p)).
Proof.
  destruct (id_cases (id p) w) as [Hid|[(s & Hid & Hs)|(s & Hid & Hs)]].
  - left. rewrite waitForNewPage_id_not_string by done.
    split; [apply calls_since_refl|]. intros [s Hs]. by destruct (Hid s).
  - right; left. rewrite (waitForNewPage_id_unknown p w s) by done.
    split; [apply calls_since_record|by exists s].
  - destruct (string_cases (code p)) as [Hcode|[c Hcode]].
    + right; left. rewrite (waitForNewPage_code_not_string p w s) by done.
      split; [apply calls_since_record|by exists s].
    + right; right. eexists.
      rewrite (waitForNewPage_valid p w s c) by done.
      assert (live w (id p) /\ is_string (code p)) as Hchecked
        by (split; [by exists s|by exists c]).
      destruct (mjoin (head (runReplies w))) as [[d [o|e]]|]; cbv zeta.
      * destruct (truthy (outcome_reject o)).
        -- exists []. cbn [snd].
           rewrite calls_since_set_now, calls_since_script_started, app_nil_r. eauto.
        -- eexists. rewrite calls_since_new_page_wait, calls_since_script_started.
           split; [reflexivity|]. eauto.
      * destruct (name e === CONTENT_SCRIPT_ABORTED_ERROR).
        -- eexists. rewrite calls_since_new_page_wait, calls_since_script_started.
           split; [reflexivity|]. eauto.
        -- exists []. cbn [snd].
           rewrite calls_since_set_now, calls_since_script_started, app_nil_r. eauto.
      * exists []. cbn [snd]. rewrite calls_since_script_started, app_nil_r. eauto.
Qed.

Lemma elem_of_attempt_calls p t0 n instants t c :
  (t, c) ∈ attempt_calls p t0 n instants ->
  exists ctx, c = runContentScript_call (id p) (code p) ctx /\ ctx_arg ctx = arg p.
Proof.
  intros [i Hi]%list_elem_of_lookup.
  destruct (attempt_calls_lookup _ _ _ _ _ _ Hi) as [_ Hc]. cbn in Hc. eauto.
Qed.

(** X7. Whatever a handler of the registry calls, it calls with its
    caller's arguments, and only after the checks on them: [navigateTab],
    [runContentScript] and [waitForNewContent] are reached with the [id] of
    a live tab only, [navigateTab] with an absolute http(s) [url] only,
    [runContentScript] and [waitForNewContent] with a string [code] only;
    [createTab] is called by [tabs.create] alone, and a timer is started by
    [tabs.waitForNewPage] alone, for [timeoutMs] milliseconds. *)
Theorem calls_carry_checked_arguments fuel command handler (p : Params) (w : World) t c :
  tabsMethods fuel !! command = Some handler ->
  (t, c) ∈ calls_since w (snd (handler p w)) ->
  match c with
  | createTab_call => command = "tabs.create"
  | hasTab_call i => i = id p /\ is_string (id p)
  | navigateTab_call i u =>
      command = "tabs.navigate" /\ i = id p /\ u = url p /\ live w (id p)
      /\ exists a, url p = JsString a /\ absolute_http a = true
  | runContentScript_call i k ctx =>
      i = id p /\ k = code p /\ ctx_arg ctx = arg p
      /\ live w (id p) /\ is_string (code p)
  | waitForNewContent_call i =>
      command = "tabs.waitForNewPage" /\ i = id p
      /\ live w (id p) /\ is_string (code p)
  | delay_call ms => command = "tabs.waitForNewPage" /\ ms = timeoutMs p
  end.
Proof.
  intros Hlookup.
  destruct (tabsMethods_lookup _ _ _ Hlookup)
    as [[-> ->]|[[-> ->]|[[-> ->]|[[-> ->]|[-> ->]]]]].
  - rewrite createTab_calls. intros Hin.
    apply elem_of_cons in Hin as [[= -> ->]|Hin]; [done|by apply elem_of_nil in Hin].
  - destruct (navigateTab_calls p w)
      as [[-> _]|[[-> Hid]|(-> & Hlive & Hurl)]]; intros Hin;
      repeat (apply elem_of_cons in Hin as [[= -> ->]|Hin]);
      try (by apply elem_of_nil in Hin); try done.
    destruct Hlive as (s & Hs & _). split; [done|by exists s].
  - destruct (run_calls p w)
      as [[-> _]|[[-> Hid]|(ctx & -> & Harg & Hlive & Hcode)]]; intros Hin;
      repeat (apply elem_of_cons in Hin as [[= -> ->]|Hin]);
      try (by apply elem_of_nil in Hin); try done.
    destruct Hlive as (s & Hs & _). split; [done|by exists s].
  - destruct (wait_calls fuel p w)
      as [[-> _]|[[-> Hid]|(s & k & instants & Hid & Hs & Hcode & -> & _)]];
      intros Hin.
    + by apply elem_of_nil in Hin.
    + apply elem_of_cons in Hin as [[= -> ->]|Hin]; [done|by apply elem_of_nil in Hin].
    + apply elem_of_cons in Hin as [[= -> ->]|Hin]; [split; [done|by exists s]|].
      destruct (elem_of_attempt_calls _ _ _ _ _ _ Hin) as (ctx & -> & Harg).
      repeat (split; [done|]). split; [by exists s|by exists k].
  - destruct (waitForNewPage_calls p w)
      as [[-> _]|[[-> Hid]|(ctx & timer & -> & Harg & Htimer & Hlive & Hcode)]];
      intros Hin.
    + by apply elem_of_nil in Hin.
    + apply elem_of_cons in Hin as [[= -> ->]|Hin]; [done|by apply elem_of_nil in Hin].
    + apply elem_of_app in Hin as [Hin|Hin].
      * repeat (apply elem_of_cons in Hin as [[= -> ->]|Hin]);
          try (by apply elem_of_nil in Hin); try done.
        destruct Hlive as (s & Hs & _). split; [done|by exists s].
      * destruct Htimer as [->|[t' ->]]; [by apply elem_of_nil in Hin|].
        apply elem_of_cons in Hin as [[= -> ->]|Hin]; [done|by apply elem_of_nil in Hin].
Qed.

(** X8. Only [tabs.wait] executes a script more than once: under every
    other command, in every world, at most one execution is started, the
    abort of it included; and no command starts more than one timer. *)
Theorem only_wait_retries fuel command handler (p : Params) (w : World) :
  tabsMethods fuel !! command = Some handler ->
  (command <> "tabs.wait" ->
   (length (executions (calls_since w (snd (handler p w)))) <= 1)%nat)
  /\ (length (timers (calls_since w (snd (handler p w)))) <= 1)%nat.
Proof.
  intros Hlookup.
  destruct (tabsMethods_lookup _ _ _ Hlookup)
    as [[-> ->]|[[-> ->]|[[-> ->]|[[-> ->]|[-> ->]]]]].
  - rewrite createTab_calls. cbn. lia.
  - destruct (navigateTab_calls p w) as [[-> _]|[[-> _]|(-> & _)]]; cbn; lia.
  - destruct (run_calls p w) as [[-> _]|[[-> _]|(ctx & -> & _)]]; cbn; lia.
  - rewrite wait_starts_no_timer. split; [done|cbn; lia].
  - destruct (waitForNewPage_calls p w)
      as [[-> _]|[[-> _]|(ctx & timer & -> & _ & [->|[t ->]] & _)]]; cbn; lia.
Qed.

(** *** More on [waitForNewPage] *)

(** X9. The timeout of [waitForNewPage] does not bound the script: when
    the execution never settles the call stays pending and no timer is ever
    started, whatever [timeoutMs] is and even when new content shows up. *)
Theorem waitForNewPage_pending_with_the_script (p : Params) (w : World) (s c : string) :
  id p = JsString s -> s ∈ liveTabs w -> code p = JsString c ->
  first_reply w = None ->
  fst (waitForNewPage p w) = Pending
  /\ timers (calls_since w (snd (waitForNewPage p w))) = []
  /\ now (snd (waitForNewPage p w)) = now w.
Proof.
  intros Hid Hlive Hcode Hfirst.
  rewrite (waitForNewPage_valid p w s c) by done.
  unfold first_reply in Hfirst. rewrite Hfirst. cbn [fst snd].
  by rewrite calls_since_script_started.
Qed.

(** X10. Once the script execution has settled, [d] milliseconds after
    the call, [waitForNewPage] always ends, and within [timeoutMs]
    milliseconds: it returns or throws, at an instant between [now + d] and
    [now + d + timeoutMs]. *)
Theorem waitForNewPage_ends_within_timeout (p : Params) (w : World) (s c : string)
        d r rest :
  id p = JsString s -> s ∈ liveTabs w -> code p = JsString c ->
  runReplies w = Some (d, r) :: rest -> 0 <= d ->
  0 <= timeoutMs p ->
  ((exists result, fst (waitForNewPage p w) = Returned result)
   \/ (exists err, fst (waitForNewPage p w) = Thrown err))
  /\ now w + d <= now (snd (waitForNewPage p w)) <= now w + d + timeoutMs p.
Proof.
  intros Hid Hlive Hcode Hrun Hd Hms.
  rewrite (waitForNewPage_valid p w s c) by done. rewrite Hrun.
  cbn [head mjoin option_join]. cbv zeta. rewrite Z.max_r by lia.
  assert (forall arrival,
            ((exists result, fst (new_page_wait p arrival
                                    (set_now (now w + d) (script_started p w)))
                             = Returned result)
             \/ (exists err, fst (new_page_wait p arrival
                                    (set_now (now w + d) (script_started p w)))
                             = Thrown err))
            /\ now w + d
               <= now (snd (new_page_wait p arrival
                              (set_now (now w + d) (script_started p w))))
               <= now w + d + timeoutMs p) as Hwait.
  { intros arrival. unfold new_page_wait. cbn [now set_now].
    destruct arrival as [t|].
    - destruct (Z.ltb_spec (now w + d + Z.max 0 (timeoutMs p)) t);
        cbn [fst snd now set_now]; (split; [eauto|lia]).
    - cbn [fst snd now set_now]. split; [eauto|lia]. }
  destruct r as [o|e].
  - destruct (truthy (outcome_reject o)); [|apply Hwait].
    cbn [fst snd set_now now]. split; [eauto|lia].
  - destruct (name e === CONTENT_SCRIPT_ABORTED_ERROR); [apply Hwait|].
    cbn [fst snd set_now now]. split; [eauto|lia].
Qed.

(** *** The pattern for URLs *)

Lemma prefix_append (pre u : string) :
  String.prefix pre u = true <-> exists rest, u = pre +:+ rest.
Proof.
  revert u. induction pre as [|a pre IH]; intros u.
  - split; [intros _; by exists u|by destruct u].
  - destruct u as [|b u]; [split; [done|by intros [rest [=]]]|].
    rewrite prefix_String, andb_true_iff, IH. split.
    + intros [->%Ascii.eqb_eq [rest ->]]. by exists rest.
    + intros [rest [= -> ->]]. split; [apply Ascii.eqb_refl|by exists rest].
Qed.

(** X11. [ALLOWED_URL_REGEXP] matches a string exactly when the string is
    [http://] or [https://] followed by anything, the empty rest
    included. *)
Theorem ALLOWED_URL_REGEXP_matches (u : string) :
  match_here ALLOWED_URL_REGEXP u = true
  <-> exists rest, u = "http://" +:+ rest \/ u = "https://" +:+ rest.
Proof.
  rewrite ALLOWED_URL_REGEXP_spec. unfold absolute_http.
  rewrite orb_true_iff, !prefix_append. split.
  - intros [[rest ->]|[rest ->]]; exists rest; eauto.
  - intros [rest [->| ->]]; [left|right]; by exists rest.
Qed.

(** *** The registry *)

(** X12. The registry has a handler for the five command names and for no
    other name. *)
Theorem registry_commands fuel (command : string) :
  is_Some (tabsMethods fuel !! command) <-> command ∈ command_names.
Proof.
  split.
  - intros [handler Hlookup].
    destruct (tabsMethods_lookup _ _ _ Hlookup)
      as [[-> _]|[[-> _]|[[-> _]|[[-> _]|[-> _]]]]];
      unfold command_names; set_solver.
  - unfold command_names. intros Hin.
    repeat (apply elem_of_cons in Hin as [->|Hin]; [by eexists|]).
    by apply elem_of_nil in Hin.
Qed.

(** *** The fuel of [wait] *)

(** X13. The fuel of [wait] is only a cut-off: when it allows more
    attempts than the tab manager has replies, [wait] is not cut off, and
    any larger fuel gives the same run. *)
Theorem wait_fuel_is_only_a_cutoff fuel (p : Params) (w : World) :
  (length (runReplies w) < fuel)%nat ->
  fst (wait fuel p w) <> OutOfFuel
  /\ forall extra, wait (fuel + extra) p w = wait fuel p w.
Proof.
  intros Hfuel.
  destruct (id_cases (id p) w) as [Hid|[(s & Hid & Hs)|(s & Hid & Hs)]].
  - split; [by rewrite wait_id_not_string|].
    intros extra. by rewrite !wait_id_not_string.
  - split; [by rewrite (wait_id_unknown fuel p w s)|].
    intros extra. by rewrite !(wait_id_unknown _ p w s).
  - destruct (string_cases (code p)) as [Hcode|[c Hcode]].
    + split; [by rewrite (wait_code_not_string fuel p w s)|].
      intros extra. by rewrite !(wait_code_not_string _ p w s).
    + assert (fst (wait fuel p w) <> OutOfFuel) as Hends.
      { rewrite (wait_valid fuel p w s c) by done. by apply attempt_enough_fuel. }
      split; [done|]. intros extra. rewrite (wait_valid fuel p w s c) in * by done.
      rewrite (wait_valid _ p w s c) by done. by apply attempt_more_fuel.
Qed.

(** X14. When the script resolves with a truthy [reject], or fails with
    an error that is not the abort error, [waitForNewPage] ends as [run]
    ends on the same script: same completion, same instant. *)
Theorem waitForNewPage_fails_as_run (p : Params) (w : World) (s c : string) d r rest :
  id p = JsString s -> s ∈ liveTabs w -> code p = JsString c ->
  runReplies w = Some (d, r) :: rest ->
  completes_without_reject r = false ->
  fst (waitForNewPage p w) = fst (run p w)
  /\ now (snd (waitForNewPage p w)) = now (snd (run p w))
  /\ timers (calls_since w (snd (waitForNewPage p w))) = [].
Proof.
  intros Hid Hlive Hcode Hrun Hr.
  rewrite (waitForNewPage_valid p w s c), (run_valid p w s c) by done.
  unfold first_reply. rewrite Hrun. cbn [head mjoin option_join]. cbv zeta.
  destruct r as [o|e]; cbn [completes_without_reject] in Hr.
  - apply negb_false_iff in Hr. rewrite Hr. cbn [fst snd].
    rewrite calls_since_set_now, calls_since_script_started.
    split; [|done]. destruct o as [v|v]; [done|reflexivity].
  - rewrite Hr. cbn [fst snd].
    by rewrite calls_since_set_now, calls_since_script_started.
Qed.

(** *** The pace of [wait] *)

Lemma attempt_calls_app p t0 l1 : forall n l2,
  attempt_calls p t0 n (l1 ++ l2)
  = attempt_calls p t0 n l1 ++ attempt_calls p t0 (n + length l1) l2.
Proof.
  induction l1 as [|t l1 IH]; intros n l2.
  - cbn. by rewrite Nat.add_0_r.
  - cbn [app attempt_calls length]. rewrite IH.
    by replace (S n + length l1)%nat with (n + S (length l1))%nat by lia.
Qed.

Lemma timed_executions_instants p t0 instants : forall n,
  fst <$> timed_executions (attempt_calls p t0 n instants) = instants.
Proof.
  induction instants as [|t later IH]; intros n; [done|].
  cbn [attempt_calls]. unfold timed_executions in *. cbn. by rewrite IH.
Qed.

Lemma log_after_attempts_starts p t0 aborts : forall n w,
  forallb aborted aborts = true ->
  log (after_attempts p (wait_metadata t0) n aborts w)
  = log w ++ attempt_calls p t0 n (starts (now w) aborts).
Proof.
  induction aborts as [|r aborts IH]; intros n w Hab.
  - cbn. by rewrite app_nil_r.
  - cbn [forallb] in Hab. apply andb_true_iff in Hab as [Hr Hab].
    destruct (aborted_inv r Hr) as (d & e & -> & Hd & He).
    cbn [after_attempts starts attempt_calls duration]. rewrite IH by done.
    assert (now (after_attempt p (wait_metadata t0) n d w) = now w + d) as ->
      by (unfold after_attempt; cbn [now set_now]; lia).
    change (log (after_attempt p (wait_metadata t0) n d w))
      with (log w ++ attempt_calls p t0 n [now w]).
    by rewrite <- app_assoc.
Qed.

Lemma length_starts {A} (rs : list (Reply A)) : forall t,
  length (starts t rs) = length rs.
Proof. induction rs as [|r rs IH]; intros t; [done|]. cbn. by rewrite IH. Qed.

Lemma starts_lookup {A} (rs : list (Reply A)) : forall t i,
  (i < length rs)%nat -> starts t rs !! i = Some (t + total_duration (take i rs)).
Proof.
  induction rs as [|r rs IH]; intros t i Hi; [cbn in Hi; lia|].
  destruct i as [|i]; cbn [starts take total_duration foldr].
  - cbn. f_equal. lia.
  - cbn [length] in Hi. cbn [lookup list_lookup]. rewrite IH by lia.
    fold (total_duration (take i rs)). f_equal. lia.
Qed.

Lemma log_attempt_first fuel p t0 n w :
  exists later,
    log (snd (attempt (S fuel) p (wait_metadata t0) n w))
    = log w ++ attempt_calls p t0 n (now w :: later).
Proof.
  rewrite attempt_step.
  assert (log (attempt_started p (wait_metadata t0) n w)
          = log w ++ attempt_calls p t0 n [now w]) as Hone by reflexivity.
  assert (forall d, log (after_attempt p (wait_metadata t0) n d w)
                    = log w ++ attempt_calls p t0 n [now w]) as Hafter by reflexivity.
  destruct (first_reply w) as [[d [o|e]]|]; cbn [snd]; try by exists [].
  destruct (name e === CONTENT_SCRIPT_ABORTED_ERROR); cbn [snd]; [|by exists []].
  destruct (log_attempt fuel p t0 (n + 1) (after_attempt p (wait_metadata t0) n d w))
    as (later & Hlog & _).
  exists later. rewrite Hlog, Hafter, <- app_assoc.
  by replace (n + 1)%nat with (S n) by lia.
Qed.

(** X15. [wait] retries at once: after [k] aborted executions, the
    attempt number [i], for every [i] up to [k], is started at the instant
    the execution before it was aborted, that is as many milliseconds after
    [wait] was entered as the first [i] executions took together. *)
Theorem wait_retries_at_once fuel (p : Params) (w : World) (s c : string)
        aborts later i :
  id p = JsString s -> s ∈ liveTabs w -> code p = JsString c ->
  forallb aborted aborts = true ->
  runReplies w = aborts ++ later ->
  (length aborts < fuel)%nat ->
  (i <= length aborts)%nat ->
  (fst <$> timed_executions (calls_since w (snd (wait fuel p w)))) !! i
  = Some (now w + total_duration (take i aborts)).
Proof.
  intros Hid Hlive Hcode Hab Hrun Hfuel Hi.
  rewrite (wait_valid _ p w s c) by done.
  replace fuel with (length aborts + S (fuel - S (length aborts)))%nat by lia.
  rewrite (attempt_after_aborts _ p _ aborts 0 _ later) by done.
  destruct (log_attempt_first (fuel - S (length aborts)) p (now w) (0 + length aborts)
              (after_attempts p (wait_metadata (now w)) 0 aborts
                 (record (hasTab_call (id p)) w)))
    as (more & Hlog).
  rewrite log_after_attempts_starts, now_after_attempts in Hlog by done.
  cbn [now record log] in Hlog. rewrite <- !app_assoc in Hlog.
  rewrite (calls_since_app _ _ _ Hlog).
  change (timed_executions ([?x] ++ ?l)) with (timed_executions l).
  rewrite <- (length_starts aborts (now w)) at 1.
  rewrite <- attempt_calls_app, timed_executions_instants.
  destruct (decide (i < length aborts)%nat) as [Hlt|Hge].
  - rewrite lookup_app_l by (by rewrite length_starts).
    by apply starts_lookup.
  - assert (i = length aborts) as -> by lia.
    rewrite lookup_app_r by (by rewrite length_starts).
    rewrite length_starts, Nat.sub_diag. cbn. by rewrite firstn_all.
Qed.

End properties.


(** ** The theorems at concrete inputs *)

(** Three aborts and then a success: four attempts, the last one numbered
    3. *)
Lemma wait_retries_while_aborted_witness :
  let w := a_world (three_aborts ++ [Some (5, Fulfilled (Resolve (JsNumber 7)))]) None in
  let p := a_request (JsString "tab1") JsUndefined in
  forallb (aborted (errors:=spec_errors)) three_aborts = true
  /\ fst (wait (errors:=spec_errors) 4 p w) = Returned (JsObject [("resolve", JsNumber 7)])
  /\ attempt_numbers (calls_since w (snd (wait (errors:=spec_errors) 4 p w)))
     = [Some 0; Some 1; Some 2; Some 3]%nat
  /\ wait_begin_times (calls_since w (snd (wait (errors:=spec_errors) 4 p w)))
     = [Some 1000; Some 1000; Some 1000; Some 1000]
  /\ last (attempt_numbers (calls_since w (snd (wait (errors:=spec_errors) 4 p w))))
     = Some (Some 3%nat).
Proof.
  intros w p.
  destruct (wait_retries_while_aborted (errors:=spec_errors) 4 p w "tab1" "click()"
              three_aborts [Some (5, Fulfilled (Resolve (JsNumber 7)))])
    as [_ Hdone]; [reflexivity | live_tab | reflexivity | reflexivity | reflexivity |].
  destruct (Hdone 5 (Resolve (JsNumber 7)) [] eq_refl) as (Hr & Hn & Ht & Hlast & _);
    [cbn; lia|].
  split; [reflexivity|]. split; [exact Hr|]. split; [exact Hn|].
  split; [exact Ht|exact Hlast].
Defined.

(** The script takes two seconds, longer than the timeout of a second and
    a half. With new content three seconds after the call, the call still
    succeeds, the timer having been started at instant 3000; with no new
    content, the call fails at instant 4500 and the message says 1.5
    seconds, the numeral 15 / 10. *)
Lemma waitForNewPage_timer_starts_after_script_witness :
  let w := a_world [Some (2000, Rejected navigated_away)] (Some 3000) in
  let w' := a_world [Some (2000, Rejected navigated_away)] None in
  let p := a_request (JsString "tab1") JsUndefined in
  completes_without_reject (errors:=spec_errors) (Rejected navigated_away) = true
  /\ timeoutMs p < 10 ^ 15
  /\ last (calls_since w (snd (waitForNewPage (errors:=spec_errors) p w)))
     = Some (3000, delay_call 1500)
  /\ fst (waitForNewPage (errors:=spec_errors) p w) = Returned (reject_object JsNull)
  /\ (exists seconds m k,
        fst (waitForNewPage (errors:=spec_errors) p w')
        = Thrown {| name := "NewPageWaitTimeout";
                    message := "Waiting for a new page timed out after "
                               +:+ seconds +:+ " seconds" |}
        /\ decimal_value seconds = Some (m, k)
        /\ m * 1000 = 1500 * 10 ^ Z.of_nat k
        /\ shortest_decimal seconds = true)
  /\ fst (waitForNewPage (errors:=spec_errors) p w')
     = Thrown {| name := "NewPageWaitTimeout";
                 message := "Waiting for a new page timed out after 1.5 seconds" |}
  /\ decimal_value "1.5" = Some (15, 1%nat).
Proof.
  intros w w' p.
  destruct (waitForNewPage_timer_starts_after_script (errors:=spec_errors) p w
              "tab1" "click()" 2000 (Rejected navigated_away) [])
    as (Hcalls & Hin & _);
    [reflexivity | live_tab | reflexivity | reflexivity | lia | reflexivity
    | cbn; lia | cbn; lia |].
  destruct (waitForNewPage_timer_starts_after_script (errors:=spec_errors) p w'
              "tab1" "click()" 2000 (Rejected navigated_away) [])
    as (_ & _ & Hlate);
    [reflexivity | live_tab | reflexivity | reflexivity | lia | reflexivity
    | cbn; lia | cbn; lia |].
  split; [reflexivity|]. split; [cbn; lia|]. split; [|split; [|split]].
  - rewrite Hcalls. reflexivity.
  - apply (Hin 3000); [reflexivity | cbn; lia].
  - apply Hlate. intros n [=].
  - split; reflexivity.
Defined.

(** C3, as stated, at [{reject: 0}]: with no new content ever, the call
    does not return [{reject: 0}]; it waits and fails with the timeout. *)
Lemma waitForNewPage_reject_zero_is_not_returned :
  let w := a_world [Some (10, Fulfilled (Reject (JsNumber 0)))] None in
  let p := a_request (JsString "tab1") JsUndefined in
  fst (waitForNewPage (errors:=spec_errors) p w)
  = Thrown {| name := "NewPageWaitTimeout";
              message := "Waiting for a new page timed out after 1.5 seconds" |}
  /\ fst (waitForNewPage (errors:=spec_errors) p w) <> Returned (reject_object (JsNumber 0))
  /\ now (snd (waitForNewPage (errors:=spec_errors) p w)) = 1000 + 10 + 1500.
Proof.
  intros w p.
  assert (fst (waitForNewPage (errors:=spec_errors) p w)
          = Thrown {| name := "NewPageWaitTimeout";
                      message := "Waiting for a new page timed out after 1.5 seconds" |})
    as Hthrown by (vm_compute; reflexivity).
  split; [exact Hthrown|]. split; [rewrite Hthrown; discriminate|].
  vm_compute; reflexivity.
Qed.

(** The script rejects with ['x'] and no navigation ever occurs. *)
Lemma waitForNewPage_returns_truthy_reject_witness :
  let w := a_world [Some (10, Fulfilled (Reject (JsString "x")))] None in
  let p := a_request (JsString "tab1") JsUndefined in
  truthy (JsString "x") = true
  /\ fst (waitForNewPage (errors:=spec_errors) p w) = Returned (JsObject [("reject", JsString "x")])
  /\ now (snd (waitForNewPage (errors:=spec_errors) p w)) = 1010.
Proof.
  intros w p.
  destruct (waitForNewPage_returns_truthy_reject (errors:=spec_errors) p w
              "tab1" "click()" 10 (JsString "x") [])
    as (Hr & Hnow & _);
    [reflexivity | live_tab | reflexivity | reflexivity | lia | reflexivity |].
  split; [reflexivity|]. split; [exact Hr|exact Hnow].
Defined.

(** The script is aborted by the navigation and the new page shows up a
    tenth of a second after the call. *)
Lemma waitForNewPage_swallows_abort_only_witness :
  let w := a_world [Some (50, Rejected navigated_away)] (Some 100) in
  let p := a_request (JsString "tab1") JsUndefined in
  name navigated_away = CONTENT_SCRIPT_ABORTED_ERROR (ScriptErrors:=spec_errors)
  /\ fst (waitForNewPage (errors:=spec_errors) p w) = Returned (reject_object JsNull).
Proof.
  intros w p.
  destruct (waitForNewPage_swallows_abort_only (errors:=spec_errors) p w
              "tab1" "click()" 50 navigated_away [])
    as [Habort _];
    [reflexivity | live_tab | reflexivity | reflexivity | lia | cbn; lia |].
  destruct (Habort eq_refl) as (_ & _ & Hin).
  split; [reflexivity|]. apply (Hin 100); [reflexivity | cbn; lia].
Defined.

(** New content shows up while the script is still running. *)
Lemma waitForNewPage_observes_before_running_witness :
  let w := a_world [Some (500, Fulfilled (Resolve (JsNumber 1)))] (Some 100) in
  let p := a_request (JsString "tab1") JsUndefined in
  "tab1" ∈ liveTabs w
  /\ (snd <$> take 3 (calls_since w (snd (waitForNewPage (errors:=spec_errors) p w))))
     = [hasTab_call (JsString "tab1");
        waitForNewContent_call (JsString "tab1");
        runContentScript_call (JsString "tab1") (JsString "click()")
          {| ctx_arg := JsNull;
             ctx_metadata := {| attemptNumber := None; runBeginTime := Some 1000;
                                waitBeginTime := None |} |}]
  /\ fst (waitForNewPage (errors:=spec_errors) p w) = Returned (reject_object JsNull).
Proof.
  intros w p.
  destruct (waitForNewPage_observes_before_running (errors:=spec_errors) p w
              "tab1" "click()")
    as [[later Hcalls] Hduring]; [reflexivity | live_tab | reflexivity |].
  split; [live_tab|]. split.
  - rewrite Hcalls. reflexivity.
  - apply (Hduring 500 (Fulfilled (Resolve (JsNumber 1))) [] 100);
      [reflexivity | reflexivity | reflexivity | lia | cbn; lia].
Defined.

(** Three aborts and then a crash of the script. *)
Lemma wait_propagates_other_errors_witness :
  let w := a_world (three_aborts ++ [Some (5, Rejected script_crashed)]) None in
  let p := a_request (JsString "tab1") JsUndefined in
  name script_crashed <> CONTENT_SCRIPT_ABORTED_ERROR (ScriptErrors:=spec_errors)
  /\ fst (wait (errors:=spec_errors) 10 p w) = Thrown script_crashed
  /\ attempt_numbers (calls_since w (snd (wait (errors:=spec_errors) 10 p w)))
     = [Some 0; Some 1; Some 2; Some 3]%nat
  /\ now (snd (wait (errors:=spec_errors) 10 p w)) = 1065.
Proof.
  intros w p.
  assert (name script_crashed <> CONTENT_SCRIPT_ABORTED_ERROR (ScriptErrors:=spec_errors))
    as Hname by discriminate.
  destruct (wait_propagates_other_errors (errors:=spec_errors) 10 p w "tab1" "click()"
              three_aborts 5 script_crashed [])
    as (Hr & Hn & _ & Hnow);
    [reflexivity | live_tab | reflexivity | reflexivity | reflexivity
    | exact Hname | cbn; lia |].
  split; [exact Hname|]. split; [exact Hr|]. split; [exact Hn|].
  apply Hnow. lia.
Defined.

(** C7, as stated, at [tabs.navigate] with the id of no live tab: the call
    fails with IllegalArgument, and a method of the tab manager has been
    invoked, [hasTab]. *)
Lemma unknown_id_invokes_hasTab :
  let w := a_world [] None in
  let p := a_request (JsString "nope") (JsString "https://example.org/") in
  tabsMethods (errors:=spec_errors) 0 !! "tabs.navigate" = Some (navigateTab (errors:=spec_errors))
  /\ ("nope" ∉ liveTabs w)
  /\ fst (navigateTab (errors:=spec_errors) p w)
     = Thrown {| name := "IllegalArgument";
                 message := "tabs.navigate(): invalid argument `id`" |}
  /\ tabManager_calls (calls_since w (snd (navigateTab (errors:=spec_errors) p w)))
     = [hasTab_call (JsString "nope")]
  /\ tabManager_calls (calls_since w (snd (navigateTab (errors:=spec_errors) p w))) <> [].
Proof.
  intros w p.
  split; [reflexivity|].
  split; [apply (bool_decide_unpack ("nope" ∉ liveTabs w)); vm_compute; exact I|].
  split; [vm_compute; reflexivity|].
  assert (tabManager_calls (calls_since w (snd (navigateTab (errors:=spec_errors) p w)))
          = [hasTab_call (JsString "nope")]) as Hcalls by (vm_compute; reflexivity).
  split; [exact Hcalls|]. rewrite Hcalls. discriminate.
Qed.

(** [tabs.run] with a number for an id. *)
Lemma invalid_id_fails_before_any_operation_witness :
  let w := a_world [] None in
  let p := a_request (JsNumber 42) JsUndefined in
  tabsMethods (errors:=spec_errors) 3 !! "tabs.run" = Some (run (errors:=spec_errors))
  /\ (exists msg, fst (run (errors:=spec_errors) p w)
                  = Thrown {| name := "IllegalArgument"; message := msg |})
  /\ tabManager_calls (calls_since w (snd (run (errors:=spec_errors) p w))) = [].
Proof.
  intros w p.
  destruct (invalid_id_fails_before_any_operation (errors:=spec_errors) 3 "tabs.run"
              (run (errors:=spec_errors)) p w)
    as [Hfails Hcalls]; [reflexivity | discriminate | no_live_tab |].
  split; [reflexivity|]. split; [exact Hfails|exact Hcalls].
Defined.

(** [tabs.waitForNewPage] with a number for an id. *)
Lemma waitForNewPage_invalid_id_names_tabs_run_witness :
  let w := a_world [] None in
  let p := a_request (JsNumber 42) JsUndefined in
  tabsMethods (errors:=spec_errors) 0 !! "tabs.waitForNewPage"
  = Some (waitForNewPage (errors:=spec_errors))
  /\ fst (waitForNewPage (errors:=spec_errors) p w)
     = Thrown {| name := "IllegalArgument";
                 message := "tabs.run(): invalid argument `id`" |}.
Proof.
  intros w p.
  destruct (waitForNewPage_invalid_id_names_tabs_run (errors:=spec_errors) 0
              (waitForNewPage (errors:=spec_errors)) p w)
    as [Hfails _]; [reflexivity | no_live_tab |].
  split; [reflexivity|exact Hfails].
Defined.

(** An [ftp] address is refused; an [https] address is navigated to. *)
Lemma navigateTab_checks_url_then_delegates_witness :
  let w := a_world [] None in
  "tab1" ∈ liveTabs w
  /\ fst (navigateTab (errors:=spec_errors)
            (a_request (JsString "tab1") (JsString "ftp://example.org/")) w)
     = Thrown {| name := "IllegalArgument";
                 message := "tabs.navigate(): `url` argument must be an absolute HTTP URL" |}
  /\ fst (navigateTab (errors:=spec_errors)
            (a_request (JsString "tab1") (JsString "https://example.org/")) w)
     = Returned (JsString "loaded").
Proof.
  intros w.
  destruct (navigateTab_checks_url_then_delegates (errors:=spec_errors)
              (a_request (JsString "tab1") (JsString "ftp://example.org/")) w "tab1")
    as [Hbad _]; [reflexivity | live_tab |].
  destruct (navigateTab_checks_url_then_delegates (errors:=spec_errors)
              (a_request (JsString "tab1") (JsString "https://example.org/")) w "tab1")
    as [_ Hgood]; [reflexivity | live_tab |].
  split; [live_tab|]. split.
  - apply Hbad. intros u [= <-]. reflexivity.
  - apply (Hgood "https://example.org/"); reflexivity.
Defined.

(** The script rejects with [0] and no new content ever shows up. *)
Lemma waitForNewPage_falsy_reject_waits_witness :
  let w := a_world [Some (10, Fulfilled (Reject (JsNumber 0)))] None in
  let p := a_request (JsString "tab1") JsUndefined in
  truthy (JsNumber 0) = false
  /\ last (calls_since w (snd (waitForNewPage (errors:=spec_errors) p w)))
     = Some (1010, delay_call 1500)
  /\ (exists msg, fst (waitForNewPage (errors:=spec_errors) p w)
                  = Thrown {| name := "NewPageWaitTimeout"; message := msg |})
  /\ fst (waitForNewPage (errors:=spec_errors) p w)
     = Thrown {| name := "NewPageWaitTimeout";
                 message := "Waiting for a new page timed out after 1.5 seconds" |}.
Proof.
  intros w p.
  destruct (waitForNewPage_falsy_reject_waits (errors:=spec_errors) p w
              "tab1" "click()" 10 (JsNumber 0) [])
    as (Htimer & _ & _ & Hlate);
    [reflexivity | live_tab | reflexivity | reflexivity | lia | cbn; lia
    | reflexivity |].
  split; [reflexivity|]. split; [exact Htimer|].
  destruct Hlate as [msg Hmsg]; [intros n [=]|].
  split; [exists msg; exact Hmsg|reflexivity].
Defined.

(** ** The further theorems at concrete inputs *)

(** [run] meets an abort: the abort error is what it throws. *)
Lemma run_executes_once_witness :
  let w := a_world three_aborts None in
  let p := a_request (JsString "tab1") JsUndefined in
  "tab1" ∈ liveTabs w
  /\ fst (run (errors:=spec_errors) p w) = Thrown navigated_away
  /\ runReplies (snd (run (errors:=spec_errors) p w))
     = [Some (20, Rejected navigated_away); Some (30, Rejected navigated_away)].
Proof.
  intros w p.
  destruct (run_executes_once (errors:=spec_errors) p w "tab1" "click()")
    as (Hr & _ & Hleft); [reflexivity | live_tab | reflexivity |].
  split; [live_tab|]. split; [exact Hr|exact Hleft].
Defined.

(** [tabs.wait] with a number for [code]. *)
Lemma code_must_be_a_string_witness :
  let w := a_world [] None in
  let p := {| id := JsString "tab1"; url := JsUndefined; code := JsNumber 7;
              arg := JsNull; timeoutMs := 0 |} in
  tabsMethods (errors:=spec_errors) 2 !! "tabs.wait" = Some (wait (errors:=spec_errors) 2)
  /\ (exists msg, fst (wait (errors:=spec_errors) 2 p w)
                  = Thrown {| name := "IllegalArgument"; message := msg |}
                  /\ includes "`code`" msg = true)
  /\ calls_since w (snd (wait (errors:=spec_errors) 2 p w))
     = [(1000, hasTab_call (JsString "tab1"))].
Proof.
  intros w p.
  destruct (code_must_be_a_string (errors:=spec_errors) 2 "tabs.wait"
              (wait (errors:=spec_errors) 2) p w "tab1")
    as [Hfails Hcalls];
    [reflexivity | right; left; reflexivity | reflexivity | live_tab
    | intros c; discriminate |].
  split; [reflexivity|]. split; [exact Hfails|exact Hcalls].
Defined.

(** The third attempt of a [wait] that is aborted three times. *)
Lemma wait_metadata_of_every_attempt_witness :
  let w := a_world (three_aborts ++ [Some (5, Fulfilled (Resolve (JsNumber 7)))]) None in
  let p := a_request (JsString "tab1") JsUndefined in
  timed_executions (calls_since w (snd (wait (errors:=spec_errors) 4 p w))) !! 2%nat
  = Some (1030, {| ctx_arg := JsNull;
                   ctx_metadata := {| attemptNumber := Some 2%nat;
                                      runBeginTime := Some 1030;
                                      waitBeginTime := Some 1000 |} |})
  /\ 1000 <= 1030.
Proof.
  intros w p.
  assert (timed_executions (calls_since w (snd (wait (errors:=spec_errors) 4 p w)))
            !! 2%nat
          = Some (1030, {| ctx_arg := JsNull;
                           ctx_metadata := {| attemptNumber := Some 2%nat;
                                              runBeginTime := Some 1030;
                                              waitBeginTime := Some 1000 |} |}))
    as Hthird by (vm_compute; reflexivity).
  split; [exact Hthird|].
  exact (proj2 (wait_metadata_of_every_attempt (errors:=spec_errors) 4 p w 2 1030 _ Hthird)).
Defined.

(** The script crashes at the first execution. *)
Lemma wait_without_abort_is_run_witness :
  let w := a_world [Some (5, Rejected script_crashed)] None in
  let p := a_request (JsString "tab1") JsUndefined in
  first_reply w = Some (5, Rejected script_crashed)
  /\ fst (wait (errors:=spec_errors) 1 p w) = fst (run (errors:=spec_errors) p w)
  /\ fst (run (errors:=spec_errors) p w) = Thrown script_crashed.
Proof.
  intros w p.
  destruct (wait_without_abort_is_run (errors:=spec_errors) 0 p w "tab1" "click()")
    as (Hsame & _); [reflexivity | live_tab | reflexivity | |].
  - intros d e [= <- <-]. discriminate.
  - split; [reflexivity|]. split; [exact Hsame|reflexivity].
Defined.

(** Three aborts, and the tab manager never answers the fourth
    execution. *)
Lemma wait_pending_with_the_script_witness :
  let w := a_world (three_aborts ++ [None]) None in
  let p := a_request (JsString "tab1") JsUndefined in
  forallb (aborted (errors:=spec_errors)) three_aborts = true
  /\ fst (wait (errors:=spec_errors) 9 p w) = Pending
  /\ attempt_numbers (calls_since w (snd (wait (errors:=spec_errors) 9 p w)))
     = [Some 0; Some 1; Some 2; Some 3]%nat.
Proof.
  intros w p.
  destruct (wait_pending_with_the_script (errors:=spec_errors) 9 p w "tab1" "click()"
              three_aborts [None])
    as (Hr & Hn & _);
    [reflexivity | live_tab | reflexivity | reflexivity | reflexivity | reflexivity
    | cbn; lia |].
  split; [reflexivity|]. split; [exact Hr|exact Hn].
Defined.

(** The timer of a [waitForNewPage] whose script resolves. *)
Lemma calls_carry_checked_arguments_witness :
  let w := a_world [Some (10, Fulfilled (Resolve JsNull))] (Some 100) in
  let p := a_request (JsString "tab1") JsUndefined in
  ((1010, delay_call 1500) ∈ calls_since w (snd (waitForNewPage (errors:=spec_errors) p w)))
  /\ 1500 = timeoutMs p.
Proof.
  intros w p.
  assert ((1010, delay_call 1500)
            ∈ calls_since w (snd (waitForNewPage (errors:=spec_errors) p w))) as Hin.
  { assert (exists before,
              calls_since w (snd (waitForNewPage (errors:=spec_errors) p w))
              = before ++ [(1010, delay_call 1500)]) as [before ->]
      by (eexists [_; _; _]; vm_compute; reflexivity).
    apply elem_of_app. right. apply elem_of_cons. by left. }
  split; [exact Hin|].
  exact (proj2 (calls_carry_checked_arguments (errors:=spec_errors) 0
                  "tabs.waitForNewPage" (waitForNewPage (errors:=spec_errors))
                  p w 1010 (delay_call 1500) eq_refl Hin)).
Defined.

(** [waitForNewPage] whose script is aborted: one execution, one timer. *)
Lemma only_wait_retries_witness :
  let w := a_world three_aborts (Some 100) in
  let p := a_request (JsString "tab1") JsUndefined in
  tabsMethods (errors:=spec_errors) 0 !! "tabs.waitForNewPage"
  = Some (waitForNewPage (errors:=spec_errors))
  /\ (length (executions
                (calls_since w (snd (waitForNewPage (errors:=spec_errors) p w)))) <= 1)%nat
  /\ (length (timers
                (calls_since w (snd (waitForNewPage (errors:=spec_errors) p w)))) <= 1)%nat.
Proof.
  intros w p.
  destruct (only_wait_retries (errors:=spec_errors) 0 "tabs.waitForNewPage"
              (waitForNewPage (errors:=spec_errors)) p w)
    as [Hexec Htimers]; [reflexivity|].
  split; [reflexivity|]. split; [apply Hexec; discriminate|exact Htimers].
Defined.

(** The script never settles although the new page has come up; the
    timeout is zero. *)
Lemma waitForNewPage_pending_with_the_script_witness :
  let w := a_world [None] (Some 100) in
  let p := {| id := JsString "tab1"; url := JsUndefined; code := JsString "spin()";
              arg := JsNull; timeoutMs := 0 |} in
  first_reply w = None
  /\ fst (waitForNewPage (errors:=spec_errors) p w) = Pending
  /\ timers (calls_since w (snd (waitForNewPage (errors:=spec_errors) p w))) = [].
Proof.
  intros w p.
  destruct (waitForNewPage_pending_with_the_script (errors:=spec_errors) p w
              "tab1" "spin()")
    as (Hr & Htimers & _); [reflexivity | live_tab | reflexivity | reflexivity |].
  split; [reflexivity|]. split; [exact Hr|exact Htimers].
Defined.

(** The script takes two seconds and no new content ever shows up. *)
Lemma waitForNewPage_ends_within_timeout_witness :
  let w := a_world [Some (2000, Fulfilled (Resolve JsNull))] None in
  let p := a_request (JsString "tab1") JsUndefined in
  0 <= timeoutMs p
  /\ 1000 + 2000 <= now (snd (waitForNewPage (errors:=spec_errors) p w))
     <= 1000 + 2000 + 1500.
Proof.
  intros w p.
  destruct (waitForNewPage_ends_within_timeout (errors:=spec_errors) p w
              "tab1" "click()" 2000 (Fulfilled (Resolve JsNull)) [])
    as [_ Hbounds];
    [reflexivity | live_tab | reflexivity | reflexivity | lia | cbn; lia |].
  split; [cbn; lia|exact Hbounds].
Defined.

(** Three replies, fuel for four attempts and for nine. *)
Lemma wait_fuel_is_only_a_cutoff_witness :
  let w := a_world three_aborts None in
  let p := a_request (JsString "tab1") JsUndefined in
  (length (runReplies w) < 4)%nat
  /\ fst (wait (errors:=spec_errors) 4 p w) <> OutOfFuel
  /\ wait (errors:=spec_errors) 9 p w = wait (errors:=spec_errors) 4 p w.
Proof.
  intros w p.
  destruct (wait_fuel_is_only_a_cutoff (errors:=spec_errors) 4 p w)
    as [Hends Hsame]; [cbn; lia|].
  split; [cbn; lia|]. split; [exact Hends|exact (Hsame 5%nat)].
Defined.

(** The script rejects with ['x']. *)
Lemma waitForNewPage_fails_as_run_witness :
  let w := a_world [Some (10, Fulfilled (Reject (JsString "x")))] (Some 100) in
  let p := a_request (JsString "tab1") JsUndefined in
  completes_without_reject (errors:=spec_errors) (Fulfilled (Reject (JsString "x"))) = false
  /\ fst (waitForNewPage (errors:=spec_errors) p w) = fst (run (errors:=spec_errors) p w)
  /\ fst (run (errors:=spec_errors) p w) = Returned (JsObject [("reject", JsString "x")]).
Proof.
  intros w p.
  destruct (waitForNewPage_fails_as_run (errors:=spec_errors) p w "tab1" "click()"
              10 (Fulfilled (Reject (JsString "x"))) [])
    as (Hsame & _);
    [reflexivity | live_tab | reflexivity | reflexivity | reflexivity |].
  split; [reflexivity|]. split; [exact Hsame|reflexivity].
Defined.

(** Aborts after 10, 20 and 30 milliseconds: the fourth attempt begins 60
    milliseconds after [wait] was entered. *)
Lemma wait_retries_at_once_witness :
  let w := a_world (three_aborts ++ [Some (5, Fulfilled (Resolve (JsNumber 7)))]) None in
  let p := a_request (JsString "tab1") JsUndefined in
  forallb (aborted (errors:=spec_errors)) three_aborts = true
  /\ (fst <$> timed_executions (calls_since w (snd (wait (errors:=spec_errors) 4 p w))))
       !! 3%nat
     = Some (1000 + (10 + (20 + (30 + 0)))).
Proof.
  intros w p.
  split; [reflexivity|].
  apply (wait_retries_at_once (errors:=spec_errors) 4 p w "tab1" "click()"
           three_aborts [Some (5, Fulfilled (Resolve (JsNumber 7)))] 3);
    [reflexivity | live_tab | reflexivity | reflexivity | reflexivity
    | cbn; lia | cbn; lia].
Defined.
